(** * setgpu.py: GPU device selection and OIDN denoiser set-up

    A shallow embedding of [setgpu.py], a script that runs inside the host
    application and reads and writes the host's configuration tree
    ([bpy.context]).  The tree is modelled as nested records; the objects
    whose attributes the script probes with [hasattr]/[getattr] carry a
    finite map of the attributes the running host version defines. *)

From Stdlib Require Import ZArith String List.
From stdpp Require Import base option gmap strings list fin_maps pretty.

Open Scope string_scope.

(** ** Python values held by version-dependent attributes *)

Inductive value : Type :=
  | VNone
  | VBool (b : bool)
  | VInt (n : Z)
  | VStr (s : string).

(** Python truth value of an attribute ([if x:], [x and y]). *)
Definition truthy (v : value) : bool :=
  match v with
  | VNone => false
  | VBool b => b
  | VInt n => negb (Z.eqb n 0)
  | VStr s => negb (String.eqb s "")
  end.

(** [str(v)], as an f-string renders it. *)
Definition str_value (v : value) : string :=
  match v with
  | VNone => "None"
  | VBool true => "True"
  | VBool false => "False"
  | VInt n => pretty n
  | VStr s => s
  end.

Abbreviation attrs := (gmap string value).

(** ** The host configuration tree *)

(** An entry of [prefs.devices]. *)
Record compute_device : Type := Device {
  d_name : string;
  d_type : string;
  d_use : bool
}.

(** [bpy.context.preferences.addons['cycles'].preferences] *)
Record cycles_preferences : Type := CyclesPreferences {
  compute_device_type : string;
  devices : list compute_device
}.

(** A compositor node: its [type] and the attributes this host version has. *)
Record node : Type := Node {
  n_type : string;
  n_attrs : attrs
}.

(** [scene.render] *)
Record render_settings : Type := RenderSettings {
  engine : string;
  render_attrs : attrs
}.

(** [scene.cycles] *)
Record cycles_settings : Type := CyclesSettings {
  device : string;
  cycles_attrs : attrs
}.

(** [bpy.context.scene].  Not every host version defines the attribute
    [node_tree]: [has_node_tree] is [hasattr(scene, 'node_tree')], and
    [node_tree] is the value of the attribute where it is defined, [None]
    when the scene has no compositor tree. *)
Record scene_t : Type := Scene {
  render : render_settings;
  cycles : cycles_settings;
  use_nodes : bool;
  has_node_tree : bool;
  node_tree : option (list node)
}.

(** [bpy.context.view_layer]: its own attributes and those of [.cycles]. *)
Record view_layer_t : Type := ViewLayer {
  vl_attrs : attrs;
  vl_cycles : attrs
}.

(** [bpy.context.preferences] *)
Record preferences_t : Type := Preferences {
  system : attrs;
  addon_cycles : cycles_preferences
}.

(** [bpy.context] *)
Record context : Type := Context {
  scene : scene_t;
  view_layer : view_layer_t;
  preferences : preferences_t
}.

(** The script's whole environment: the host tree and what was printed. *)
Record world : Type := World {
  ctx : context;
  stdout : list string
}.

(** *** Field updates *)

Definition set_d_use (b : bool) (d : compute_device) : compute_device :=
  Device (d_name d) (d_type d) b.

Definition set_compute_device_type (s : string) (p : cycles_preferences)
  : cycles_preferences :=
  CyclesPreferences s (devices p).

Definition set_devices (ds : list compute_device) (p : cycles_preferences)
  : cycles_preferences :=
  CyclesPreferences (compute_device_type p) ds.

Definition set_n_attrs (a : attrs) (n : node) : node := Node (n_type n) a.

Definition set_engine (s : string) (r : render_settings) : render_settings :=
  RenderSettings s (render_attrs r).

Definition set_render_attrs (a : attrs) (r : render_settings) : render_settings :=
  RenderSettings (engine r) a.

Definition set_device (s : string) (c : cycles_settings) : cycles_settings :=
  CyclesSettings s (cycles_attrs c).

Definition set_cycles_attrs (a : attrs) (c : cycles_settings) : cycles_settings :=
  CyclesSettings (device c) a.

Definition set_render (r : render_settings) (s : scene_t) : scene_t :=
  Scene r (cycles s) (use_nodes s) (has_node_tree s) (node_tree s).

Definition set_cycles (c : cycles_settings) (s : scene_t) : scene_t :=
  Scene (render s) c (use_nodes s) (has_node_tree s) (node_tree s).

Definition set_node_tree (t : option (list node)) (s : scene_t) : scene_t :=
  Scene (render s) (cycles s) (use_nodes s) (has_node_tree s) t.

Definition set_vl_attrs (a : attrs) (v : view_layer_t) : view_layer_t :=
  ViewLayer a (vl_cycles v).

Definition set_system (a : attrs) (p : preferences_t) : preferences_t :=
  Preferences a (addon_cycles p).

Definition set_addon_cycles (c : cycles_preferences) (p : preferences_t)
  : preferences_t :=
  Preferences (system p) c.

Definition set_scene (s : scene_t) (c : context) : context :=
  Context s (view_layer c) (preferences c).

Definition set_view_layer (v : view_layer_t) (c : context) : context :=
  Context (scene c) v (preferences c).

Definition set_preferences (p : preferences_t) (c : context) : context :=
  Context (scene c) (view_layer c) p.

Definition set_ctx (c : context) (w : world) : world := World c (stdout w).

(** ** Effects: state, output and exceptions *)

Inductive exn : Type :=
  | AttributeError (msg : string).

(** [str(e)] *)
Definition str_exn (e : exn) : string :=
  match e with AttributeError msg => msg end.

(** A computation over a piece of state [S]: it returns the state it left
    behind, also when it raises. *)
Definition St (S A : Type) : Type := S → S * (exn + A).

Definition st_ret {S A} (a : A) : St S A := λ s, (s, inr a).

Definition st_bind {S A B} (k : A → St S B) (m : St S A) : St S B :=
  λ s, match m s with
       | (s', inr a) => k a s'
       | (s', inl e) => (s', inl e)
       end.

#[global] Instance St_ret {S} : MRet (St S) := @st_ret S.
#[global] Instance St_bind {S} : MBind (St S) := @st_bind S.

Definition gets {S A} (f : S → A) : St S A := λ s, (s, inr (f s)).

(** Evaluate an expression that reads the state and may raise. *)
Definition eval {S A} (f : S → exn + A) : St S A := λ s, (s, f s).
Definition modify {S} (f : S → S) : St S unit := λ s, (f s, inr tt).

(** Run a computation on the component [get s] and store what it leaves. *)
Definition zoom {S T A} (get : S → T) (set : T → S → S) (m : St T A) : St S A :=
  λ s, let '(t, r) := m (get s) in (set t s, r).

(** [for x in xs: body], mutating each element in place. *)
Fixpoint for_each {T} (body : St T unit) (xs : list T) : list T * (exn + unit) :=
  match xs with
  | [] => ([], inr tt)
  | x :: rest =>
      match body x with
      | (x', inr _) =>
          let '(rest', r) := for_each body rest in (x' :: rest', r)
      | (x', inl e) => (x' :: rest, inl e)
      end
  end.

(** The same loop threading a local variable [b] through the iterations. *)
Fixpoint for_each_acc {T B} (body : B → St T B) (b : B) (xs : list T)
  : list T * (exn + B) :=
  match xs with
  | [] => ([], inr b)
  | x :: rest =>
      match body b x with
      | (x', inr b') =>
          let '(rest', r) := for_each_acc body b' rest in (x' :: rest', r)
      | (x', inl e) => (x' :: rest, inl e)
      end
  end.

(** [print(line)] *)
Definition print (line : string) : St world unit :=
  modify (λ w, World (ctx w) (stdout w ++ [line])).

(** *** Lenses into the tree *)

Definition in_ctx {A} : St context A → St world A := zoom ctx set_ctx.
Definition in_scene {A} : St scene_t A → St world A :=
  λ m, in_ctx (zoom scene set_scene m).
Definition in_scene_render {A} : St render_settings A → St world A :=
  λ m, in_scene (zoom render set_render m).
Definition in_scene_cycles {A} : St cycles_settings A → St world A :=
  λ m, in_scene (zoom cycles set_cycles m).
Definition in_view_layer {A} : St view_layer_t A → St world A :=
  λ m, in_ctx (zoom view_layer set_view_layer m).
Definition in_preferences {A} : St preferences_t A → St world A :=
  λ m, in_ctx (zoom preferences set_preferences m).
Definition in_cycles_prefs {A} : St cycles_preferences A → St world A :=
  λ m, in_preferences (zoom addon_cycles set_addon_cycles m).

(** ** Attribute access *)

(** What the host does when a script assigns an attribute the object does
    not define.  Host structs with fixed slots refuse the assignment with
    an [AttributeError]; ordinary Python objects create the attribute;
    other host objects accept the assignment and forget it, so that the
    attribute is still undefined at the next access.  The script runs on
    any of these, so the model takes it as a parameter. *)
Inductive missing_attr_write : Type :=
  | RaiseAttributeError
  | CreateAttribute
  | DropWrite.

Definition no_attribute (cls name : string) : exn :=
  AttributeError ("'" +:+ cls +:+ "' object has no attribute '" +:+ name +:+ "'").

(** [hasattr(o, name)] *)
Definition hasattr (name : string) (o : attrs) : bool :=
  match o !! name with Some _ => true | None => false end.

(** [getattr(o, name, default)] *)
Definition getattr_default (name : string) (dflt : value) (o : attrs) : value :=
  match o !! name with Some v => v | None => dflt end.

(** [o.name] *)
Definition getattr (cls name : string) : St attrs value :=
  λ o, match o !! name with
       | Some v => (o, inr v)
       | None => (o, inl (no_attribute cls name))
       end.

(** [o.name = v] *)
Definition setattr (on_missing : missing_attr_write) (cls name : string)
  (v : value) : St attrs unit :=
  λ o, match o !! name with
       | Some _ => (<[name:=v]> o, inr tt)
       | None =>
           match on_missing with
           | RaiseAttributeError => (o, inl (no_attribute cls name))
           | CreateAttribute => (<[name:=v]> o, inr tt)
           | DropWrite => (o, inr tt)
           end
       end.

(** [if hasattr(o, name): o.name = v] *)
Definition setattr_if_present (on_missing : missing_attr_write)
  (cls name : string) (v : value) : St attrs unit :=
  λ o, if hasattr name o then setattr on_missing cls name v o else (o, inr tt).

(** ** The script *)

(** [prefs.refresh_devices()]: the host re-enumerates the hardware.  The
    model's [devices] is the collection as the host enumerates it, so the
    call leaves it as it is. *)
Definition refresh_devices : St cycles_preferences unit := mret tt.

(** [any(d.type == 'OPTIX' for d in prefs.devices)] *)
Definition any_device_of (kind : string) (ds : list compute_device) : bool :=
  existsb (λ d, String.eqb (d_type d) kind) ds.

Definition test_optix_availability : St world bool :=
  in_cycles_prefs refresh_devices ;;
  in_cycles_prefs (gets (λ prefs, any_device_of "OPTIX" (devices prefs))).

(** Truth value of the result of [setup_gpu_rendering] ([if not gpu:]). *)
Definition truthy_kind (gpu : option string) : bool :=
  match gpu with
  | None => false
  | Some s => negb (String.eqb s "")
  end.

Definition setup_gpu_rendering : St world (option string) :=
  in_cycles_prefs refresh_devices ;;
  in_scene_render (modify (set_engine "CYCLES")) ;;
  in_scene_cycles (modify (set_device "GPU")) ;;
  optix ← test_optix_availability ;
  if (optix : bool) then
    in_cycles_prefs (modify (set_compute_device_type "OPTIX")) ;;
    in_cycles_prefs (zoom devices set_devices (for_each
      (λ d, modify (set_d_use (String.eqb (d_type d) "OPTIX")) d))) ;;
    mret (Some "OPTIX")
  else
    in_cycles_prefs (modify (set_compute_device_type "CUDA")) ;;
    found ← in_cycles_prefs (zoom devices set_devices (for_each_acc
      (λ (found : bool) (d : compute_device),
         if String.eqb (d_type d) "CUDA"
         then (modify (set_d_use true) ;; mret true : St _ bool) d
         else (modify (set_d_use false) ;; mret found : St _ bool) d)
      false)) ;
    mret (if (found : bool) then Some "CUDA" else None).

(** The nodes of a tree; [None] has none. *)
Definition nodes_of (t : option (list node)) : list node := default [] t.

(** [scene.use_nodes and scene.node_tree], as a condition: the attribute
    [node_tree] is read only when [use_nodes] is true, and the read raises
    where the scene does not define it; a tree object is true, [None]
    false. *)
Definition nodes_in_use (s : scene_t) : exn + bool :=
  if use_nodes s then
    if has_node_tree s then inr (bool_decide (is_Some (node_tree s)))
    else inl (no_attribute "Scene" "node_tree")
  else inr false.

Definition check_denoising_enabled (c : context) : exn + bool :=
  let scene := scene c in
  let vl := view_layer c in
  if truthy (getattr_default "use_denoising" (VBool false)
               (cycles_attrs (cycles scene)))
  then inr true
  else if hasattr "use_denoising" (vl_cycles vl)
          && truthy (getattr_default "use_denoising" VNone (vl_cycles vl))
  then inr true
  else match nodes_in_use scene with
       | inl e => inl e
       | inr true =>
           inr (existsb (λ node, String.eqb (n_type node) "DENOISE")
                  (nodes_of (node_tree scene)))
       | inr false => inr false
       end.

Section Configurator.

Variable on_missing : missing_attr_write.

Definition scene_cycles_set (name : string) (v : value) : St world unit :=
  in_scene_cycles (zoom cycles_attrs set_cycles_attrs
    (setattr on_missing "CyclesRenderSettings" name v)).

Definition scene_cycles_set_if_present (name : string) (v : value)
  : St world unit :=
  in_scene_cycles (zoom cycles_attrs set_cycles_attrs
    (setattr_if_present on_missing "CyclesRenderSettings" name v)).

(** The body of the loop over the compositor nodes. *)
Definition denoise_node_body : St node unit :=
  λ node,
    if String.eqb (n_type node) "DENOISE" then
      (zoom n_attrs set_n_attrs
         (setattr_if_present on_missing "CompositorNodeDenoise" "use_gpu"
            (VBool true)) ;;
       zoom n_attrs set_n_attrs
         (setattr_if_present on_missing "CompositorNodeDenoise" "use_hdr"
            (VBool true))) node
    else (node, inr tt).

Definition setup_oidn_denoising : St world unit :=
  (* Scene-level denoising *)
  scene_cycles_set "use_denoising" (VBool true) ;;
  scene_cycles_set "denoiser" (VStr "OPENIMAGEDENOISE") ;;
  scene_cycles_set "denoising_store_passes" (VBool true) ;;
  scene_cycles_set "denoising_prefilter" (VStr "ACCURATE") ;;
  scene_cycles_set "denoising_quality" (VStr "HIGH") ;;
  (* Ensure normal & albedo passes *)
  in_view_layer (zoom vl_attrs set_vl_attrs
    (setattr_if_present on_missing "ViewLayer" "use_pass_normal"
       (VBool true))) ;;
  in_view_layer (zoom vl_attrs set_vl_attrs
    (setattr_if_present on_missing "ViewLayer" "use_pass_diffuse_color"
       (VBool true))) ;;
  (* GPU denoising flags *)
  scene_cycles_set_if_present "use_denoising_gpu" (VBool true) ;;
  scene_cycles_set_if_present "denoising_use_gpu" (VBool true) ;;
  (* Compositor GPU *)
  in_scene_render (zoom render_attrs set_render_attrs
    (setattr_if_present on_missing "RenderSettings" "use_compositor_gpu"
       (VBool true))) ;;
  in_preferences (zoom system set_system
    (setattr_if_present on_missing "PreferencesSystem" "compositor_device"
       (VStr "GPU"))) ;;
  (* Node-based compositor *)
  nodes_on ← in_scene (eval nodes_in_use) ;
  if (nodes_on : bool) then
    in_scene (zoom (λ scene, nodes_of (node_tree scene))
                   (λ nodes, set_node_tree (Some nodes))
                   (for_each denoise_node_body))
  else mret tt.

(** The summary's loop over the devices, which only reads and prints. *)
Fixpoint print_enabled_devices (ds : list compute_device) : St world unit :=
  match ds with
  | [] => mret tt
  | d :: rest =>
      (if d_use d
       then print ("  - " +:+ d_name d +:+ " (" +:+ d_type d +:+ ")")
       else mret tt) ;;
      print_enabled_devices rest
  end.

Definition setup_gpu_and_denoiser : St world unit :=
  engine_now ← in_scene_render (gets engine) ;
  if negb (String.eqb (engine_now : string) "CYCLES") then
    print "Cycles not active, skipping setup."
  else
    print "Configuring GPU rendering..." ;;
    gpu ← setup_gpu_rendering ;
    if negb (truthy_kind gpu) then
      print "No GPU devices found, aborting."
    else
      print ("GPU setup complete: " +:+ default "None" gpu) ;;
      denoising ← in_ctx (eval check_denoising_enabled) ;
      if negb (denoising : bool) then
        print "Denoising not enabled in file; skipping denoiser setup."
      else
        print "Denoising enabled: forcing OIDN configuration..." ;;
        setup_oidn_denoising ;;
        (* Optional tile size for GPU *)
        auto_tile ← in_scene_cycles (gets (λ c,
          hasattr "use_auto_tile" (cycles_attrs c))) ;
        (if (auto_tile : bool) then
           scene_cycles_set "use_auto_tile" (VBool false) ;;
           scene_cycles_set "tile_x" (VInt 256) ;;
           scene_cycles_set "tile_y" (VInt 256)
         else mret tt) ;;
        (* Summary *)
        prefs ← in_cycles_prefs (gets id) ;
        print "=== Final Configuration ===" ;;
        print ("Compute Type: " +:+ compute_device_type prefs) ;;
        render_device ← in_scene_cycles (gets device) ;
        print ("Render Device: " +:+ render_device) ;;
        denoiser ← in_scene_cycles (zoom cycles_attrs set_cycles_attrs
          (getattr "CyclesRenderSettings" "denoiser")) ;
        print ("Denoiser: " +:+ str_value denoiser +:+ " (GPU)") ;;
        print "Enabled Devices:" ;;
        print_enabled_devices (devices prefs).

(** The [__main__] block: the final state and the process exit status. *)
Definition run_main (body : St world unit) (w : world) : world * Z :=
  match body w with
  | (w', inr _) =>
      (World (ctx w') (stdout w' ++ ["Setup completed successfully."]), 0%Z)
  | (w', inl e) =>
      (World (ctx w') (stdout w' ++ ["Error: " +:+ str_exn e]), 1%Z)
  end.

Definition main : world → world * Z := run_main setup_gpu_and_denoiser.

End Configurator.

(** * Properties *)

(** ** Helpers: reading the tree *)

Definition prefs_of (w : world) : cycles_preferences :=
  addon_cycles (preferences (ctx w)).

Definition scene_cycles_of (w : world) : attrs :=
  cycles_attrs (cycles (scene (ctx w))).

(** [after] is [before] with [use] set on the devices of [kind] and cleared
    on all others; names, types and order are kept. *)
Definition enabled_exactly (kind : string)
  (before after : list compute_device) : Prop :=
  Forall2 (λ d d',
    d_name d' = d_name d ∧ d_type d' = d_type d ∧
    (d_use d' = true ↔ d_type d = kind)) before after.

(** What [setup_gpu_rendering] leaves behind, in closed form. *)
Definition select_devices (kind : string) (ds : list compute_device)
  : list compute_device :=
  map (λ d, set_d_use (String.eqb (d_type d) kind) d) ds.

Definition gpu_ctx (kind : string) (c : context) : context :=
  let s := scene c in
  Context
    (Scene (RenderSettings "CYCLES" (render_attrs (render s)))
           (CyclesSettings "GPU" (cycles_attrs (cycles s)))
           (use_nodes s) (has_node_tree s) (node_tree s))
    (view_layer c)
    (Preferences (system (preferences c))
       (CyclesPreferences kind
          (select_devices kind (devices (addon_cycles (preferences c)))))).

Definition gpu_configured (kind : string) (w : world) : world :=
  World (gpu_ctx kind (ctx w)) (stdout w).

(** The kind [setup_gpu_rendering] returns for a device collection. *)
Definition selected_kind (ds : list compute_device) : option string :=
  if any_device_of "OPTIX" ds then Some "OPTIX"
  else if any_device_of "CUDA" ds then Some "CUDA"
  else None.

(** ** Denoising detector: what counts as a source of denoising *)

(** The attribute [name] of [o] exists and is true. *)
Definition flag_on (name : string) (o : attrs) : Prop :=
  ∃ v, o !! name = Some v ∧ truthy v = true.

(** The scene defines [node_tree] and the tree holds a denoise-typed
    node. *)
Definition denoise_node_present (s : scene_t) : Prop :=
  has_node_tree s = true ∧
  ∃ nodes node,
    node_tree s = Some nodes ∧ node ∈ nodes ∧ n_type node = "DENOISE".

(** The three sources: the scene flag, the view-layer flag, a denoise node
    in the active node graph (the scene has [use_nodes] on). *)
Definition denoising_indicated (c : context) : Prop :=
  flag_on "use_denoising" (cycles_attrs (cycles (scene c))) ∨
  flag_on "use_denoising" (vl_cycles (view_layer c)) ∨
  (use_nodes (scene c) = true ∧ denoise_node_present (scene c)).

(** The unprobed read of [scene.node_tree] does not raise: it is skipped,
    or the scene defines the attribute. *)
Definition nodes_readable (s : scene_t) : Prop :=
  use_nodes s = true → has_node_tree s = true.

#[global] Instance nodes_readable_dec (s : scene_t) :
  Decision (nodes_readable s).
Proof. unfold nodes_readable. apply _. Defined.

(** ** Example hosts *)

Definition example_devices : list compute_device :=
  [Device "RTX 4090" "OPTIX" false;
   Device "RTX 4090" "CUDA" true;
   Device "Ryzen 9" "CPU" true].

Definition cuda_only_devices : list compute_device :=
  [Device "GTX 1080" "CUDA" false; Device "Ryzen 9" "CPU" true].

Definition cpu_only_devices : list compute_device :=
  [Device "Ryzen 9" "CPU" true].

(** A host whose [scene.cycles] has every attribute the script touches. *)
Definition full_cycles_attrs : attrs :=
  {[ "use_denoising" := VBool true;
     "denoiser" := VStr "OPTIX";
     "denoising_store_passes" := VBool false;
     "denoising_prefilter" := VStr "FAST";
     "denoising_quality" := VStr "BALANCED";
     "denoising_use_gpu" := VBool false;
     "use_auto_tile" := VBool true;
     "tile_x" := VInt 2048;
     "tile_y" := VInt 2048 ]}.

Definition example_host (eng : string) (cy : attrs)
  (ds : list compute_device) : world :=
  World
    (Context
       (Scene (RenderSettings eng {[ "use_compositor_gpu" := VBool false ]})
              (CyclesSettings "CPU" cy)
              true true
              (Some [Node "R_LAYERS" ∅;
                     Node "DENOISE" {[ "use_hdr" := VBool false ]}]))
       (ViewLayer {[ "use_pass_normal" := VBool false ]} ∅)
       (Preferences ∅ (CyclesPreferences "NONE" ds)))
    [].

(** A CYCLES scene with a CUDA device, [use_nodes] on and both denoising
    flags false; [tree] tells whether the host defines [scene.node_tree],
    and the tree holds no denoise node. *)
Definition flags_off_host (tree : bool) : world :=
  World
    (Context
       (Scene (RenderSettings "CYCLES" ∅)
              (CyclesSettings "CPU" {[ "use_denoising" := VBool false ]})
              true tree
              (if tree then Some [Node "R_LAYERS" ∅; Node "COMPOSITE" ∅]
               else None))
       (ViewLayer ∅ {[ "use_denoising" := VBool false ]})
       (Preferences ∅ (CyclesPreferences "NONE" cuda_only_devices)))
    [].

(** A CYCLES scene with a CUDA device and no denoising anywhere. *)
Definition plain_host : world := flags_off_host true.

(** The same scene on a host that does not define [scene.node_tree]. *)
Definition no_node_tree_host : world := flags_off_host false.

(** ** Closed forms of the writes *)

(** [if hasattr(o, name): o.name = v] as a function on the attributes. *)
Definition set_if_present (name : string) (v : value) (o : attrs) : attrs :=
  if hasattr name o then <[name:=v]> o else o.

(** What [o.name = v] leaves of the attributes, whether it raises or not:
    an attribute the object defines is overwritten; one it lacks is added
    only by a host that creates attributes. *)
Definition write_attr (on_missing : missing_attr_write) (name : string)
  (v : value) (o : attrs) : attrs :=
  match on_missing with
  | CreateAttribute => <[name:=v]> o
  | _ => set_if_present name v o
  end.

(** The attribute after [o.name = v], from what it was before. *)
Definition written (on_missing : missing_attr_write) (before : option value)
  (v : value) : option value :=
  match before, on_missing with
  | Some _, _ => Some v
  | None, CreateAttribute => Some v
  | None, _ => None
  end.

Definition upd_cycles_attrs (f : attrs → attrs) (c : context) : context :=
  set_scene (set_cycles (set_cycles_attrs (f (cycles_attrs (cycles (scene c))))
                           (cycles (scene c))) (scene c)) c.

Definition upd_render_attrs (f : attrs → attrs) (c : context) : context :=
  set_scene (set_render (set_render_attrs (f (render_attrs (render (scene c))))
                           (render (scene c))) (scene c)) c.

Definition upd_vl_attrs (f : attrs → attrs) (c : context) : context :=
  set_view_layer (set_vl_attrs (f (vl_attrs (view_layer c))) (view_layer c)) c.

Definition upd_system (f : attrs → attrs) (c : context) : context :=
  set_preferences (set_system (f (system (preferences c))) (preferences c)) c.

Definition upd_nodes (f : list node → list node) (c : context) : context :=
  set_scene (set_node_tree (Some (f (nodes_of (node_tree (scene c)))))
               (scene c)) c.

Definition on_ctx (f : context → context) (w : world) : world :=
  set_ctx (f (ctx w)) w.

(** The attributes of [scene.cycles] that [setup_oidn_denoising] assigns
    without probing for them. *)
Definition oidn_scene_fields : list string :=
  ["use_denoising"; "denoiser"; "denoising_store_passes";
   "denoising_prefilter"; "denoising_quality"].

(** Every attribute of [names] can be assigned on [o]: the host creates
    missing attributes, or none of them is missing. *)
Definition writable (on_missing : missing_attr_write) (names : list string)
  (o : attrs) : Prop :=
  on_missing = CreateAttribute ∨ Forall (λ name, is_Some (o !! name)) names.

#[global] Instance missing_attr_write_eq_dec : EqDecision missing_attr_write.
Proof. solve_decision. Defined.

#[global] Instance writable_dec (on_missing : missing_attr_write)
  (names : list string) (o : attrs) : Decision (writable on_missing names o).
Proof. unfold writable. apply _. Defined.

(** No assignment to an attribute of [names] raises on [o]: the host does
    not refuse assignments, or none of them is missing. *)
Definition assignable (on_missing : missing_attr_write) (names : list string)
  (o : attrs) : Prop :=
  on_missing = RaiseAttributeError → Forall (λ name, is_Some (o !! name)) names.

#[global] Instance assignable_dec (on_missing : missing_attr_write)
  (names : list string) (o : attrs) : Decision (assignable on_missing names o).
Proof. unfold assignable. apply _. Defined.

(** [scene.cycles] after the five unprobed assignments. *)
Definition oidn_scene_cycles (on_missing : missing_attr_write) (a : attrs)
  : attrs :=
  write_attr on_missing "denoising_quality" (VStr "HIGH")
    (write_attr on_missing "denoising_prefilter" (VStr "ACCURATE")
       (write_attr on_missing "denoising_store_passes" (VBool true)
          (write_attr on_missing "denoiser" (VStr "OPENIMAGEDENOISE")
             (write_attr on_missing "use_denoising" (VBool true) a)))).

(** [scene.cycles] after the configurator. *)
Definition oidn_cycles_attrs (on_missing : missing_attr_write) (a : attrs)
  : attrs :=
  set_if_present "denoising_use_gpu" (VBool true)
    (set_if_present "use_denoising_gpu" (VBool true)
       (oidn_scene_cycles on_missing a)).

Definition oidn_node (n : node) : node :=
  if String.eqb (n_type n) "DENOISE"
  then set_n_attrs (set_if_present "use_hdr" (VBool true)
                      (set_if_present "use_gpu" (VBool true) (n_attrs n))) n
  else n.

(** The tree when [setup_oidn_denoising] reaches its loop over the
    nodes. *)
Definition oidn_attrs_configured (on_missing : missing_attr_write)
  (c : context) : context :=
  upd_system (set_if_present "compositor_device" (VStr "GPU"))
    (upd_render_attrs (set_if_present "use_compositor_gpu" (VBool true))
       (upd_vl_attrs (λ a,
          set_if_present "use_pass_diffuse_color" (VBool true)
            (set_if_present "use_pass_normal" (VBool true) a))
          (upd_cycles_attrs (oidn_cycles_attrs on_missing) c))).

(** The tree a run of [setup_oidn_denoising] that does not raise leaves. *)
Definition oidn_configured (on_missing : missing_attr_write) (c : context)
  : context :=
  let c' := oidn_attrs_configured on_missing c in
  if use_nodes (scene c) && bool_decide (is_Some (node_tree (scene c)))
  then upd_nodes (map oidn_node) c'
  else c'.




(** A host like [example_host] whose [scene.cycles] lacks
    [denoising_quality]. *)
Definition no_quality_host : world :=
  example_host "CYCLES" (delete "denoising_quality" full_cycles_attrs)
    example_devices.

(** ** Closed forms of the orchestrator's writes *)

(** [scene.cycles] after the tile-size block. *)
Definition tile_attrs (on_missing : missing_attr_write) (a : attrs) : attrs :=
  if hasattr "use_auto_tile" a
  then write_attr on_missing "tile_y" (VInt 256)
         (write_attr on_missing "tile_x" (VInt 256)
            (write_attr on_missing "use_auto_tile" (VBool false) a))
  else a.

(** The tile attributes assigned without a probe of their own. *)
Definition tile_fields : list string := ["tile_x"; "tile_y"].

(** Every unprobed assignment of a full run can be carried out on [a]. *)
Definition run_writable (on_missing : missing_attr_write) (a : attrs) : Prop :=
  writable on_missing oidn_scene_fields a ∧
  (hasattr "use_auto_tile" a = true → writable on_missing tile_fields a).

#[global] Instance run_writable_dec (on_missing : missing_attr_write)
  (a : attrs) : Decision (run_writable on_missing a).
Proof. unfold run_writable. apply _. Defined.

(** Nothing raises in a full run on [w]: no unprobed assignment is
    refused, the unprobed read of [scene.node_tree] finds the attribute,
    and so does the summary's read of [scene.cycles.denoiser], which a
    host that forgets assignments to missing attributes leaves
    undefined. *)
Definition completes (on_missing : missing_attr_write) (w : world) : Prop :=
  assignable on_missing oidn_scene_fields (scene_cycles_of w) ∧
  nodes_readable (scene (ctx w)) ∧
  (hasattr "use_auto_tile" (scene_cycles_of w) = true →
   assignable on_missing tile_fields (scene_cycles_of w)) ∧
  (on_missing = DropWrite → is_Some (scene_cycles_of w !! "denoiser")).

#[global] Instance completes_dec (on_missing : missing_attr_write)
  (w : world) : Decision (completes on_missing w).
Proof. unfold completes. apply _. Defined.

(** The tree a full run of the orchestrator leaves. *)
Definition final_ctx (on_missing : missing_attr_write) (kind : string)
  (c : context) : context :=
  upd_cycles_attrs (tile_attrs on_missing)
    (oidn_configured on_missing (gpu_ctx kind c)).

(** The lines the summary prints for the enabled devices. *)
Definition enabled_lines (ds : list compute_device) : list string :=
  flat_map (λ d, if d_use d
                 then ["  - " +:+ d_name d +:+ " (" +:+ d_type d +:+ ")"]
                 else []) ds.

(** The orchestrator gets past its three guards on [w]. *)
Definition reaches_configurator (w : world) : Prop :=
  engine (render (scene (ctx w))) = "CYCLES" ∧
  (∃ d, d ∈ devices (prefs_of w) ∧ (d_type d = "OPTIX" ∨ d_type d = "CUDA")) ∧
  check_denoising_enabled (ctx w) = inr true.

(** Why a run past the three guards can raise: the host refuses an
    assignment to one of the attributes assigned without a probe, or the
    scene does not define [node_tree], or the host forgot the assignment
    to a [denoiser] attribute it lacks and the summary reads it. *)
Definition raise_cause (on_missing : missing_attr_write) (w : world) : Prop :=
  (on_missing = RaiseAttributeError ∧
   ∃ name, name ∈ (oidn_scene_fields ++ tile_fields)%list ∧
           scene_cycles_of w !! name = None) ∨
  ¬ nodes_readable (scene (ctx w)) ∨
  (on_missing = DropWrite ∧ scene_cycles_of w !! "denoiser" = None).

(** ** Vocabulary for the effect of the configurator on one object *)

(** [after] is [before] with every attribute of [forced] set, and every
    attribute of [probed] that [before] defines overwritten; nothing else
    is added or changed. *)
Definition attrs_rewritten (forced probed : gmap string value)
  (before after : attrs) : Prop :=
  ∀ k, after !! k =
       match forced !! k with
       | Some v => Some v
       | None => (λ v0, default v0 (probed !! k)) <$> before !! k
       end.

(** The assignments of [setup_oidn_denoising], in source order. *)
Definition oidn_scene_writes : list (string * value) :=
  [("use_denoising", VBool true);
   ("denoiser", VStr "OPENIMAGEDENOISE");
   ("denoising_store_passes", VBool true);
   ("denoising_prefilter", VStr "ACCURATE");
   ("denoising_quality", VStr "HIGH")].

Definition gpu_flag_writes : list (string * value) :=
  [("use_denoising_gpu", VBool true); ("denoising_use_gpu", VBool true)].

Definition pass_writes : list (string * value) :=
  [("use_pass_normal", VBool true); ("use_pass_diffuse_color", VBool true)].

Definition node_writes : list (string * value) :=
  [("use_gpu", VBool true); ("use_hdr", VBool true)].

(** The unprobed assignments [ws] as [attrs_rewritten] sees them: forced
    on a host that creates attributes, and like probed ones on the
    others, which leave a missing attribute undefined when they do not
    raise. *)
Definition forced_on (on_missing : missing_attr_write)
  (ws : list (string * value)) : gmap string value :=
  match on_missing with
  | CreateAttribute => list_to_map ws
  | _ => ∅
  end.

Definition probed_on (on_missing : missing_attr_write)
  (ws probed : list (string * value)) : gmap string value :=
  match on_missing with
  | CreateAttribute => list_to_map probed
  | _ => list_to_map (ws ++ probed)
  end.

(** [o.name = v] for each pair of [ws], in order. *)
Definition write_all (ws : list (string * value)) (o : attrs) : attrs :=
  foldl (λ o p, <[p.1 := p.2]> o) o ws.

(** What the loop over the compositor nodes does to one node; [on] tells
    whether the loop runs at all. *)
Definition node_rewritten (on : bool) (n n' : node) : Prop :=
  n_type n' = n_type n ∧
  if on && String.eqb (n_type n) "DENOISE"
  then attrs_rewritten ∅ (list_to_map node_writes) (n_attrs n) (n_attrs n')
  else n_attrs n' = n_attrs n.

(** The lines a full run prints before the list of enabled devices. *)
Definition success_lines (kind : string) : list string :=
  ["Configuring GPU rendering...";
   "GPU setup complete: " +:+ kind;
   "Denoising enabled: forcing OIDN configuration...";
   "=== Final Configuration ===";
   "Compute Type: " +:+ kind;
   "Render Device: GPU";
   "Denoiser: OPENIMAGEDENOISE (GPU)";
   "Enabled Devices:"].

(** The three lines printed before the configurator runs. *)
Definition progress_lines (kind : string) : list string :=
  ["Configuring GPU rendering...";
   "GPU setup complete: " +:+ kind;
   "Denoising enabled: forcing OIDN configuration..."].

(** A host that reaches the configurator and has [use_auto_tile] but
    neither [tile_x] nor [tile_y]. *)
Definition no_tiles_host : world :=
  example_host "CYCLES"
    (delete "tile_y" (delete "tile_x" full_cycles_attrs)) example_devices.

(** A host that reaches the configurator and lacks
    [denoising_store_passes]. *)
Definition no_store_passes_host : world :=
  example_host "CYCLES" (delete "denoising_store_passes" full_cycles_attrs)
    example_devices.

(** A host on which nothing indicates denoising: its [scene.cycles] has
    the five settings with [use_denoising] false, the view layer has no
    flag and [use_nodes] is off. *)
Definition undetected_host : world :=
  World
    (Context
       (Scene (RenderSettings "CYCLES" ∅)
              (CyclesSettings "CPU"
                 (<["use_denoising" := VBool false]> full_cycles_attrs))
              false true None)
       (ViewLayer ∅ ∅)
       (Preferences ∅ (CyclesPreferences "NONE" cuda_only_devices)))
    [].

(** The host of the worked examples, and what the configurator leaves of
    it. *)
Definition cycles_host : world :=
  example_host "CYCLES" full_cycles_attrs example_devices.

Definition cycles_host_configured : world :=
  fst (setup_oidn_denoising RaiseAttributeError cycles_host).

(** The line the summary prints for a device of [kind]. *)
Definition device_line (kind : string) (d : compute_device) : string :=
  "  - " +:+ d_name d +:+ " (" +:+ kind +:+ ")".

(** What a full run leaves of [cycles_host]. *)
Definition cycles_host_done : world :=
  fst (setup_gpu_and_denoiser RaiseAttributeError cycles_host).

(** The exception [e] is one a run on [w] can raise: an [AttributeError]
    for an attribute missing from [scene.cycles], one of the seven
    assigned without a probe of their own, or for the [node_tree] the
    scene does not define. *)
Definition raise_explained (w : world) (e : exn) : Prop :=
  (∃ name, name ∈ (oidn_scene_fields ++ tile_fields)%list ∧
           scene_cycles_of w !! name = None ∧
           e = no_attribute "CyclesRenderSettings" name) ∨
  (¬ nodes_readable (scene (ctx w)) ∧ e = no_attribute "Scene" "node_tree").

(** ** Loops over the device collection *)

Lemma for_each_modify {T} (f : T → T → T) (xs : list T) :
  for_each (λ x, modify (f x) x) xs = (map (λ x, f x x) xs, inr tt).
Proof.
  induction xs as [|x xs IH]; simpl; [done|].
  by rewrite IH.
Qed.

Lemma cuda_loop (found : bool) (ds : list compute_device) :
  for_each_acc
    (λ (found : bool) (d : compute_device),
       if String.eqb (d_type d) "CUDA"
       then (modify (set_d_use true) ;; mret true : St _ bool) d
       else (modify (set_d_use false) ;; mret found : St _ bool) d)
    found ds
  = (select_devices "CUDA" ds, inr (found || any_device_of "CUDA" ds)).
Proof.
  revert found. induction ds as [|d ds IH]; intros found; simpl.
  - by rewrite orb_false_r.
  - destruct (String.eqb (d_type d) "CUDA") eqn:E; simpl.
    + rewrite IH. by rewrite orb_true_r.
    + by rewrite IH.
Qed.

Lemma any_device_of_spec (kind : string) (ds : list compute_device) :
  any_device_of kind ds = true ↔ ∃ d, d ∈ ds ∧ d_type d = kind.
Proof.
  unfold any_device_of. rewrite existsb_exists. split.
  - intros (d & Hin & Heq). exists d. split.
    + by apply list_elem_of_In.
    + by apply String.eqb_eq.
  - intros (d & Hin & Heq). exists d. split.
    + by apply list_elem_of_In.
    + by apply String.eqb_eq.
Qed.

Lemma select_devices_enabled (kind : string) (ds : list compute_device) :
  enabled_exactly kind ds (select_devices kind ds).
Proof.
  unfold enabled_exactly, select_devices.
  induction ds as [|d ds IH]; simpl; constructor; [|done].
  simpl. repeat split; try done.
  - apply String.eqb_eq.
  - apply String.eqb_eq.
Qed.

(** The selector never raises, and its effect is [gpu_configured]. *)
Lemma setup_gpu_rendering_eq (w : world) :
  setup_gpu_rendering w =
    let ds := devices (prefs_of w) in
    if any_device_of "OPTIX" ds
    then (gpu_configured "OPTIX" w, inr (Some "OPTIX"))
    else (gpu_configured "CUDA" w,
          inr (if any_device_of "CUDA" ds then Some "CUDA" else None)).
Proof.
  destruct w as [[[r c un hnt nt] vl [sy [cdt ds]]] out].
  unfold setup_gpu_rendering, test_optix_availability, gpu_configured, gpu_ctx,
    prefs_of.
  cbn -[any_device_of for_each for_each_acc select_devices].
  unfold mbind, St_bind, st_bind, in_cycles_prefs, in_preferences, in_ctx, zoom.
  cbn -[any_device_of for_each for_each_acc select_devices].
  destruct (any_device_of "OPTIX" ds) eqn:Hoptix.
  - cbn -[any_device_of for_each for_each_acc select_devices].
    by rewrite (for_each_modify (λ d, set_d_use (String.eqb (d_type d) "OPTIX"))).
  - cbn -[any_device_of for_each for_each_acc select_devices].
    by rewrite cuda_loop.
Qed.

(** ** Device selector *)

(** C3: with at least one OPTIX device in the collection, the selector
    returns ['OPTIX'], sets the compute backend to OPTIX, and leaves [use]
    true on exactly the OPTIX devices. *)
Theorem setup_gpu_rendering_optix (w : world) :
  (∃ d, d ∈ devices (prefs_of w) ∧ d_type d = "OPTIX") →
  ∃ w', setup_gpu_rendering w = (w', inr (Some "OPTIX")) ∧
        compute_device_type (prefs_of w') = "OPTIX" ∧
        enabled_exactly "OPTIX" (devices (prefs_of w)) (devices (prefs_of w')).
Proof.
  intros Hoptix. apply any_device_of_spec in Hoptix.
  rewrite setup_gpu_rendering_eq. cbv zeta. rewrite Hoptix.
  eexists. split; [reflexivity|]. split; [reflexivity|].
  apply select_devices_enabled.
Qed.

(** C4: with no OPTIX device but at least one CUDA device, the selector
    returns ['CUDA'], sets the compute backend to CUDA, and leaves [use]
    true on exactly the CUDA devices. *)
Theorem setup_gpu_rendering_cuda (w : world) :
  (∀ d, d ∈ devices (prefs_of w) → d_type d ≠ "OPTIX") →
  (∃ d, d ∈ devices (prefs_of w) ∧ d_type d = "CUDA") →
  ∃ w', setup_gpu_rendering w = (w', inr (Some "CUDA")) ∧
        compute_device_type (prefs_of w') = "CUDA" ∧
        enabled_exactly "CUDA" (devices (prefs_of w)) (devices (prefs_of w')).
Proof.
  intros Hno Hcuda. apply any_device_of_spec in Hcuda.
  rewrite setup_gpu_rendering_eq. cbv zeta.
  destruct (any_device_of "OPTIX" (devices (prefs_of w))) eqn:Hoptix.
  - apply any_device_of_spec in Hoptix as (d & Hin & Hty).
    by destruct (Hno d Hin).
  - rewrite Hcuda.
    eexists. split; [reflexivity|]. split; [reflexivity|].
    apply select_devices_enabled.
Qed.

(** C5: with neither an OPTIX nor a CUDA device, the selector returns
    [None], every device ends with [use] false, and the compute backend is
    left at the fallback kind CUDA. *)
Theorem setup_gpu_rendering_none (w : world) :
  (∀ d, d ∈ devices (prefs_of w) → d_type d ≠ "OPTIX" ∧ d_type d ≠ "CUDA") →
  ∃ w', setup_gpu_rendering w = (w', inr None) ∧
        compute_device_type (prefs_of w') = "CUDA" ∧
        length (devices (prefs_of w')) = length (devices (prefs_of w)) ∧
        ∀ d', d' ∈ devices (prefs_of w') → d_use d' = false.
Proof.
  intros Hno.
  rewrite setup_gpu_rendering_eq. cbv zeta.
  destruct (any_device_of "OPTIX" (devices (prefs_of w))) eqn:Hoptix.
  { apply any_device_of_spec in Hoptix as (d & Hin & Hty).
    by destruct (Hno d Hin). }
  destruct (any_device_of "CUDA" (devices (prefs_of w))) eqn:Hcuda.
  { apply any_device_of_spec in Hcuda as (d & Hin & Hty).
    by destruct (Hno d Hin). }
  eexists. split; [reflexivity|]. split; [reflexivity|].
  unfold gpu_configured, gpu_ctx, prefs_of, select_devices; simpl. split.
  - apply length_map.
  - intros d' Hin. apply list_elem_of_fmap in Hin as (d & -> & Hin).
    simpl. apply String.eqb_neq. by apply Hno.
Qed.

(** C9: in every branch, the [None] one included, the selector returns
    normally with the render engine set to CYCLES and the cycles device
    set to GPU. *)
Theorem setup_gpu_rendering_engine_device (w : world) :
  ∃ gpu w', setup_gpu_rendering w = (w', inr gpu) ∧
            engine (render (scene (ctx w'))) = "CYCLES" ∧
            device (cycles (scene (ctx w'))) = "GPU".
Proof.
  rewrite setup_gpu_rendering_eq. cbv zeta.
  destruct (any_device_of "OPTIX" (devices (prefs_of w)));
    eexists _, _; (split; [reflexivity|]); by split.
Qed.

Lemma setup_gpu_rendering_optix_witness :
  (∃ d, d ∈ devices (prefs_of (example_host "CYCLES" full_cycles_attrs example_devices))
        ∧ d_type d = "OPTIX") ∧
  ∃ w', setup_gpu_rendering (example_host "CYCLES" full_cycles_attrs example_devices)
          = (w', inr (Some "OPTIX")) ∧
        compute_device_type (prefs_of w') = "OPTIX" ∧
        enabled_exactly "OPTIX" example_devices (devices (prefs_of w')).
Proof.
  assert (H : ∃ d, d ∈ devices (prefs_of
            (example_host "CYCLES" full_cycles_attrs example_devices))
          ∧ d_type d = "OPTIX").
  { exists (Device "RTX 4090" "OPTIX" false). split; [left | reflexivity]. }
  split; [exact H|].
  exact (setup_gpu_rendering_optix _ H).
Defined.

Lemma setup_gpu_rendering_cuda_witness :
  ((∀ d, d ∈ cuda_only_devices → d_type d ≠ "OPTIX") ∧
   (∃ d, d ∈ cuda_only_devices ∧ d_type d = "CUDA")) ∧
  ∃ w', setup_gpu_rendering (example_host "CYCLES" full_cycles_attrs cuda_only_devices)
          = (w', inr (Some "CUDA")) ∧
        compute_device_type (prefs_of w') = "CUDA" ∧
        enabled_exactly "CUDA" cuda_only_devices (devices (prefs_of w')).
Proof.
  assert (Hno : ∀ d, d ∈ cuda_only_devices → d_type d ≠ "OPTIX").
  { intros d Hin. unfold cuda_only_devices in Hin.
    repeat (apply elem_of_cons in Hin as [-> | Hin]; [simpl; congruence|]).
    by apply elem_of_nil in Hin. }
  assert (Hcuda : ∃ d, d ∈ cuda_only_devices ∧ d_type d = "CUDA").
  { exists (Device "GTX 1080" "CUDA" false). split; [left | reflexivity]. }
  split; [by split|].
  exact (setup_gpu_rendering_cuda
           (example_host "CYCLES" full_cycles_attrs cuda_only_devices)
           Hno Hcuda).
Defined.

Lemma setup_gpu_rendering_none_witness :
  (∀ d, d ∈ cpu_only_devices → d_type d ≠ "OPTIX" ∧ d_type d ≠ "CUDA") ∧
  ∃ w', setup_gpu_rendering (example_host "CYCLES" full_cycles_attrs cpu_only_devices)
          = (w', inr None) ∧
        compute_device_type (prefs_of w') = "CUDA" ∧
        length (devices (prefs_of w')) = 1 ∧
        ∀ d', d' ∈ devices (prefs_of w') → d_use d' = false.
Proof.
  assert (Hno : ∀ d, d ∈ cpu_only_devices →
                     d_type d ≠ "OPTIX" ∧ d_type d ≠ "CUDA").
  { intros d Hin. unfold cpu_only_devices in Hin.
    repeat (apply elem_of_cons in Hin as [-> | Hin]; [simpl; split; congruence|]).
    by apply elem_of_nil in Hin. }
  split; [exact Hno|].
  exact (setup_gpu_rendering_none
           (example_host "CYCLES" full_cycles_attrs cpu_only_devices) Hno).
Defined.

(** ** Denoising detector *)

Lemma hasattr_true (name : string) (o : attrs) :
  hasattr name o = true ↔ is_Some (o !! name).
Proof.
  unfold hasattr. by destruct (o !! name).
Qed.

Lemma flag_on_getattr_default (name : string) (o : attrs) :
  truthy (getattr_default name (VBool false) o) = true ↔ flag_on name o.
Proof.
  unfold getattr_default, flag_on. destruct (o !! name) as [v|]; simpl.
  - split; [by exists v | by intros (? & [= <-] & ?)].
  - split; [done | by intros (? & ? & ?)].
Qed.

Lemma flag_on_probe (name : string) (o : attrs) :
  hasattr name o && truthy (getattr_default name VNone o) = true
  ↔ flag_on name o.
Proof.
  unfold hasattr, getattr_default, flag_on.
  destruct (o !! name) as [v|]; simpl.
  - split; [by exists v | by intros (? & [= <-] & ?)].
  - split; [done | by intros (? & ? & ?)].
Qed.

Lemma nodes_in_use_readable (s : scene_t) :
  nodes_readable s →
  nodes_in_use s = inr (use_nodes s && bool_decide (is_Some (node_tree s))).
Proof.
  unfold nodes_readable, nodes_in_use. intros Hr.
  destruct (use_nodes s); [|done]. by rewrite Hr.
Qed.

Lemma nodes_in_use_unreadable (s : scene_t) :
  ¬ nodes_readable s →
  nodes_in_use s = inl (no_attribute "Scene" "node_tree").
Proof.
  unfold nodes_readable, nodes_in_use. intros Hr.
  destruct (use_nodes s); [|by destruct Hr].
  destruct (has_node_tree s); [by destruct Hr | done].
Qed.

Lemma denoise_node_scan (s : scene_t) :
  nodes_readable s →
  (use_nodes s && bool_decide (is_Some (node_tree s)) = true ∧
   existsb (λ node, String.eqb (n_type node) "DENOISE")
     (nodes_of (node_tree s)) = true)
  ↔ use_nodes s = true ∧ denoise_node_present s.
Proof.
  intros Hr. unfold denoise_node_present.
  rewrite andb_true_iff, bool_decide_eq_true, existsb_exists. split.
  - intros [[Hon [nodes Hnt]] (n & Hin & Hty)]. split; [done|].
    split; [by apply Hr|].
    rewrite Hnt in Hin. simpl in Hin.
    exists nodes, n. repeat split; [done | by apply list_elem_of_In |].
    by apply String.eqb_eq.
  - intros [Hon (_ & nodes & n & Hnt & Hin & Hty)]. rewrite Hnt. simpl.
    repeat split; [done | by eexists |].
    exists n. split; [by apply list_elem_of_In | by apply String.eqb_eq].
Qed.

(** The detector, by cases on the two flags and on the read of
    [scene.node_tree]. *)
Lemma check_denoising_enabled_cases (c : context) :
  (denoising_indicated c ∧ check_denoising_enabled c = inr true) ∨
  (¬ denoising_indicated c ∧ nodes_readable (scene c) ∧
   check_denoising_enabled c = inr false) ∨
  (¬ denoising_indicated c ∧ ¬ nodes_readable (scene c) ∧
   check_denoising_enabled c = inl (no_attribute "Scene" "node_tree")).
Proof.
  unfold check_denoising_enabled, denoising_indicated. cbv zeta.
  pose proof (flag_on_getattr_default "use_denoising"
                (cycles_attrs (cycles (scene c)))) as Hscene.
  pose proof (flag_on_probe "use_denoising" (vl_cycles (view_layer c))) as Hvl.
  destruct (truthy (getattr_default "use_denoising" (VBool false) _)).
  { left. split; [left; by apply Hscene | done]. }
  destruct (hasattr "use_denoising" _ && truthy _).
  { left. split; [right; left; by apply Hvl | done]. }
  assert (Hno1 : ¬ flag_on "use_denoising" (cycles_attrs (cycles (scene c))))
    by (intros H; by apply Hscene in H).
  assert (Hno2 : ¬ flag_on "use_denoising" (vl_cycles (view_layer c)))
    by (intros H; by apply Hvl in H).
  destruct (decide (nodes_readable (scene c))) as [Hr | Hr].
  - rewrite (nodes_in_use_readable _ Hr).
    pose proof (denoise_node_scan (scene c) Hr) as Hnodes.
    destruct (use_nodes (scene c) && bool_decide _) eqn:Hon.
    + destruct (existsb _ _) eqn:Hex.
      * left. split; [|done]. right; right. by apply Hnodes.
      * right; left. split; [|done].
        intros [H | [H | H]]; [done | done |].
        apply Hnodes in H as [_ H]. congruence.
    + right; left. split; [|done].
      intros [H | [H | H]]; [done | done |].
      apply Hnodes in H as [H _]. congruence.
  - rewrite (nodes_in_use_unreadable _ Hr).
    right; right. split; [|done].
    intros [H | [H | [Hon [Hhas _]]]]; [done | done |].
    apply Hr. by intros _.
Qed.

(** C2 (as amended): the detector returns true exactly when one of the
    three sources indicates denoising; when none does, it returns false
    provided the scene has [use_nodes] off or defines [node_tree], and
    raises [AttributeError] where [use_nodes] is on and the scene does not
    define [node_tree]. *)
Theorem check_denoising_enabled_spec (c : context) :
  (check_denoising_enabled c = inr true ↔ denoising_indicated c) ∧
  (check_denoising_enabled c = inr false ↔
   ¬ denoising_indicated c ∧ nodes_readable (scene c)) ∧
  (check_denoising_enabled c = inl (no_attribute "Scene" "node_tree") ↔
   ¬ denoising_indicated c ∧ ¬ nodes_readable (scene c)) ∧
  (∀ e, check_denoising_enabled c = inl e →
        e = no_attribute "Scene" "node_tree").
Proof.
  destruct (check_denoising_enabled_cases c)
    as [(Hin & ->) | [(Hin & Hr & ->) | (Hin & Hr & ->)]].
  - repeat split; try done; try (by intros [? ?]).
  - repeat split; try done; try (by intros [? ?]).
  - repeat split; try done; try (by intros [? ?]). by intros e [= <-].
Qed.

(** C2 as stated fails: on a host whose scene has [use_nodes] on and does
    not define [node_tree], with both flags false, no source indicates
    denoising and the detector raises instead of returning false. *)
Lemma check_denoising_enabled_no_node_tree :
  ¬ denoising_indicated (ctx no_node_tree_host) ∧
  check_denoising_enabled (ctx no_node_tree_host)
  = inl (AttributeError "'Scene' object has no attribute 'node_tree'") ∧
  check_denoising_enabled (ctx no_node_tree_host) ≠ inr false.
Proof.
  assert (Hrun : check_denoising_enabled (ctx no_node_tree_host)
                 = inl (AttributeError
                          "'Scene' object has no attribute 'node_tree'"))
    by (vm_compute; reflexivity).
  split; [|split; [exact Hrun | by rewrite Hrun]].
  intros [(v & Hv & Ht) | [(v & Hv & Ht) | (_ & Hhas & _)]].
  - vm_compute in Hv. injection Hv as <-. discriminate Ht.
  - vm_compute in Hv. injection Hv as <-. discriminate Ht.
  - discriminate Hhas.
Qed.

(** ** Running computations step by step *)

Lemma bind_ok {S A B} (m : St S A) (k : A → St S B) (s s' : S) (a : A) :
  m s = (s', inr a) → (m ≫= k) s = k a s'.
Proof. intros H. unfold mbind, St_bind, st_bind. by rewrite H. Qed.

Lemma bind_raise {S A B} (m : St S A) (k : A → St S B) (s s' : S) (e : exn) :
  m s = (s', inl e) → (m ≫= k) s = (s', inl e).
Proof. intros H. unfold mbind, St_bind, st_bind. by rewrite H. Qed.

Lemma print_eq (line : string) (w : world) :
  print line w = (World (ctx w) (stdout w ++ [line]), inr tt).
Proof. reflexivity. Qed.

Lemma in_ctx_gets {A} (f : context → A) (w : world) :
  in_ctx (gets f) w = (w, inr (f (ctx w))).
Proof. by destruct w. Qed.

Lemma in_scene_gets {A} (f : scene_t → A) (w : world) :
  in_scene (gets f) w = (w, inr (f (scene (ctx w)))).
Proof. by destruct w as [[s vl p] out]. Qed.

Lemma in_scene_render_gets {A} (f : render_settings → A) (w : world) :
  in_scene_render (gets f) w = (w, inr (f (render (scene (ctx w))))).
Proof. by destruct w as [[[r cy un hnt nt] vl p] out]. Qed.

Lemma in_scene_cycles_gets {A} (f : cycles_settings → A) (w : world) :
  in_scene_cycles (gets f) w = (w, inr (f (cycles (scene (ctx w))))).
Proof. by destruct w as [[[r cy un hnt nt] vl p] out]. Qed.

Lemma in_cycles_prefs_gets {A} (f : cycles_preferences → A) (w : world) :
  in_cycles_prefs (gets f) w = (w, inr (f (prefs_of w))).
Proof. by destruct w as [[s vl [sy cp]] out]. Qed.

(** ** Attribute writes *)

Lemma setattr_ok (on_missing : missing_attr_write) (cls name : string)
  (v : value) (o : attrs) :
  on_missing = CreateAttribute ∨ is_Some (o !! name) →
  setattr on_missing cls name v o = (<[name:=v]> o, inr tt).
Proof.
  unfold setattr. intros [-> | [v0 ->]]; [|done].
  by destruct (o !! name).
Qed.

Lemma setattr_raises (cls name : string) (v : value) (o : attrs) :
  o !! name = None →
  setattr RaiseAttributeError cls name v o = (o, inl (no_attribute cls name)).
Proof. unfold setattr. by intros ->. Qed.

Lemma setattr_if_present_eq (on_missing : missing_attr_write)
  (cls name : string) (v : value) (o : attrs) :
  setattr_if_present on_missing cls name v o = (set_if_present name v o, inr tt).
Proof.
  unfold setattr_if_present, set_if_present, hasattr, setattr.
  by destruct (o !! name).
Qed.

Lemma set_if_present_dom (name : string) (v : value) (o : attrs) :
  dom (set_if_present name v o) = dom o.
Proof.
  unfold set_if_present, hasattr.
  destruct (o !! name) eqn:E; [|done].
  apply dom_insert_lookup_L. by rewrite E.
Qed.

Lemma set_if_present_lookup_ne (name name' : string) (v : value) (o : attrs) :
  name ≠ name' → set_if_present name v o !! name' = o !! name'.
Proof.
  intros Hne. unfold set_if_present.
  destruct (hasattr name o); [|done]. by rewrite lookup_insert_ne.
Qed.

(** *** Writes to [scene.cycles] *)

Lemma scene_cycles_set_ok (on_missing : missing_attr_write) (name : string)
  (v : value) (w : world) :
  on_missing = CreateAttribute ∨ is_Some (scene_cycles_of w !! name) →
  scene_cycles_set on_missing name v w
  = (on_ctx (upd_cycles_attrs (insert name v)) w, inr tt).
Proof.
  intros H. unfold scene_cycles_set, in_scene_cycles, in_scene, in_ctx, zoom.
  change (cycles_attrs (cycles (scene (ctx w)))) with (scene_cycles_of w).
  by rewrite (setattr_ok _ _ _ _ _ H).
Qed.

Lemma scene_cycles_set_raises (name : string) (v : value) (w : world) :
  scene_cycles_of w !! name = None →
  scene_cycles_set RaiseAttributeError name v w
  = (w, inl (no_attribute "CyclesRenderSettings" name)).
Proof.
  intros H. unfold scene_cycles_set, in_scene_cycles, in_scene, in_ctx, zoom.
  change (cycles_attrs (cycles (scene (ctx w)))) with (scene_cycles_of w).
  rewrite (setattr_raises _ _ _ _ H).
  by destruct w as [[[r [d a] un hnt nt] vl p] out].
Qed.

Lemma scene_cycles_set_if_present_eq (on_missing : missing_attr_write)
  (name : string) (v : value) (w : world) :
  scene_cycles_set_if_present on_missing name v w
  = (on_ctx (upd_cycles_attrs (set_if_present name v)) w, inr tt).
Proof.
  unfold scene_cycles_set_if_present, in_scene_cycles, in_scene, in_ctx, zoom.
  by rewrite setattr_if_present_eq.
Qed.

Lemma scene_cycles_of_upd (f : attrs → attrs) (w : world) :
  scene_cycles_of (on_ctx (upd_cycles_attrs f) w) = f (scene_cycles_of w).
Proof. reflexivity. Qed.

(** *** The loop over the compositor nodes *)

Lemma denoise_node_body_eq (on_missing : missing_attr_write) (n : node) :
  denoise_node_body on_missing n = (oidn_node n, inr tt).
Proof.
  unfold denoise_node_body, oidn_node.
  destruct (String.eqb (n_type n) "DENOISE"); [|done].
  unfold mbind, St_bind, st_bind, zoom.
  rewrite setattr_if_present_eq. simpl.
  by rewrite setattr_if_present_eq.
Qed.

Lemma for_each_total {T} (body : St T unit) (f : T → T) (xs : list T) :
  (∀ x, body x = (f x, inr tt)) →
  for_each body xs = (map f xs, inr tt).
Proof.
  intros Hbody. induction xs as [|x xs IH]; simpl; [done|].
  by rewrite Hbody, IH.
Qed.


(** *** Probed writes to the other objects *)

Lemma vl_set_if_present_eq (on_missing : missing_attr_write)
  (name : string) (v : value) (w : world) :
  in_view_layer (zoom vl_attrs set_vl_attrs
    (setattr_if_present on_missing "ViewLayer" name v)) w
  = (on_ctx (upd_vl_attrs (set_if_present name v)) w, inr tt).
Proof.
  unfold in_view_layer, in_ctx, zoom. by rewrite setattr_if_present_eq.
Qed.

Lemma render_set_if_present_eq (on_missing : missing_attr_write)
  (name : string) (v : value) (w : world) :
  in_scene_render (zoom render_attrs set_render_attrs
    (setattr_if_present on_missing "RenderSettings" name v)) w
  = (on_ctx (upd_render_attrs (set_if_present name v)) w, inr tt).
Proof.
  unfold in_scene_render, in_scene, in_ctx, zoom.
  by rewrite setattr_if_present_eq.
Qed.

Lemma system_set_if_present_eq (on_missing : missing_attr_write)
  (name : string) (v : value) (w : world) :
  in_preferences (zoom system set_system
    (setattr_if_present on_missing "PreferencesSystem" name v)) w
  = (on_ctx (upd_system (set_if_present name v)) w, inr tt).
Proof.
  unfold in_preferences, in_ctx, zoom. by rewrite setattr_if_present_eq.
Qed.

Lemma denoise_nodes_loop_eq (on_missing : missing_attr_write) (w : world) :
  in_scene (zoom (λ scene, nodes_of (node_tree scene))
                 (λ nodes, set_node_tree (Some nodes))
                 (for_each (denoise_node_body on_missing))) w
  = (on_ctx (upd_nodes (map oidn_node)) w, inr tt).
Proof.
  unfold in_scene, in_ctx, zoom.
  by rewrite (for_each_total _ oidn_node _ (denoise_node_body_eq on_missing)).
Qed.

(** ** Denoiser configurator *)

Lemma in_scene_eval {A} (f : scene_t → exn + A) (w : world) :
  in_scene (eval f) w = (w, f (scene (ctx w))).
Proof. by destruct w as [[s vl p] out]. Qed.

Lemma in_ctx_eval {A} (f : context → exn + A) (w : world) :
  in_ctx (eval f) w = (w, f (ctx w)).
Proof. by destruct w. Qed.

Lemma in_scene_eval_is {A} (f : scene_t → exn + A) (w : world) (r : exn + A) :
  f (scene (ctx w)) = r → in_scene (eval f) w = (w, r).
Proof. intros <-. apply in_scene_eval. Qed.

Lemma in_ctx_eval_is {A} (f : context → exn + A) (w : world) (r : exn + A) :
  f (ctx w) = r → in_ctx (eval f) w = (w, r).
Proof. intros <-. apply in_ctx_eval. Qed.

Lemma present_after_insert (P : Prop) (i j : string) (x : value) (o : attrs) :
  P ∨ is_Some (o !! j) → P ∨ is_Some (<[i:=x]> o !! j).
Proof.
  intros [H | H]; [by left | right].
  apply lookup_insert_is_Some. destruct (decide (i = j)); auto.
Qed.

Lemma writable_lookup (on_missing : missing_attr_write) (names : list string)
  (o : attrs) (name : string) :
  writable on_missing names o → name ∈ names →
  on_missing = CreateAttribute ∨ is_Some (o !! name).
Proof.
  intros [H | H] Hin; [by left | right].
  by apply (proj1 (Forall_forall _ _) H).
Qed.

Lemma assignable_lookup (on_missing : missing_attr_write)
  (names : list string) (o : attrs) (name : string) :
  assignable on_missing names o → name ∈ names →
  on_missing = RaiseAttributeError → is_Some (o !! name).
Proof.
  intros H Hin Hp. by apply (proj1 (Forall_forall _ _) (H Hp)).
Qed.

Lemma writable_assignable (on_missing : missing_attr_write)
  (names : list string) (o : attrs) :
  writable on_missing names o → assignable on_missing names o.
Proof. intros [-> | H]; [done | by intros _]. Qed.

(** *** What an assignment leaves *)


Lemma write_attr_lookup_eq (on_missing : missing_attr_write) (name : string)
  (v : value) (o : attrs) :
  write_attr on_missing name v o !! name = written on_missing (o !! name) v.
Proof.
  unfold write_attr, written, set_if_present, hasattr.
  destruct on_missing, (o !! name) eqn:E;
    rewrite ?lookup_insert_eq; done.
Qed.

Lemma write_attr_lookup_ne (on_missing : missing_attr_write)
  (name k : string) (v : value) (o : attrs) :
  name ≠ k → write_attr on_missing name v o !! k = o !! k.
Proof.
  intros Hne. unfold write_attr, set_if_present.
  destruct on_missing, (hasattr name o);
    rewrite ?lookup_insert_ne by done; done.
Qed.

Lemma write_attr_is_Some (on_missing : missing_attr_write) (name k : string)
  (v : value) (o : attrs) :
  is_Some (o !! k) → is_Some (write_attr on_missing name v o !! k).
Proof.
  intros H. destruct (decide (name = k)) as [-> | Hne].
  - rewrite write_attr_lookup_eq. destruct H as [v0 ->]. by eexists.
  - by rewrite write_attr_lookup_ne.
Qed.


Lemma setattr_accepts (on_missing : missing_attr_write) (cls name : string)
  (v : value) (o : attrs) :
  (on_missing = RaiseAttributeError → is_Some (o !! name)) →
  setattr on_missing cls name v o = (write_attr on_missing name v o, inr tt).
Proof.
  intros H. unfold setattr, write_attr, set_if_present, hasattr.
  destruct (o !! name) eqn:E.
  - by destruct on_missing.
  - destruct on_missing; try done. by destruct (H eq_refl).
Qed.

Lemma scene_cycles_set_accepts (on_missing : missing_attr_write)
  (name : string) (v : value) (w : world) :
  (on_missing = RaiseAttributeError → is_Some (scene_cycles_of w !! name)) →
  scene_cycles_set on_missing name v w
  = (on_ctx (upd_cycles_attrs (write_attr on_missing name v)) w, inr tt).
Proof.
  intros H. unfold scene_cycles_set, in_scene_cycles, in_scene, in_ctx, zoom.
  change (cycles_attrs (cycles (scene (ctx w)))) with (scene_cycles_of w).
  by rewrite (setattr_accepts _ _ _ _ _ H).
Qed.

Ltac in_list :=
  solve [repeat first [apply list_elem_of_here | apply list_elem_of_further]].

Ltac not_in_list :=
  let Hin := fresh "Hin" in
  intros Hin;
  repeat (apply elem_of_cons in Hin as [Hin | Hin]; [discriminate Hin|]);
  by apply elem_of_nil in Hin.

Ltac step_eq lem := erewrite bind_ok by apply lem; cbv beta.

(** One unprobed assignment that the host accepts; [H] tells that the
    attribute is defined on a host that refuses new ones. *)
Ltac step_accept H :=
  erewrite bind_ok by
    (apply scene_cycles_set_accepts; intros ?;
     rewrite ?scene_cycles_of_upd; repeat apply write_attr_is_Some;
     by apply H);
  cbv beta.

(** With no unprobed assignment refused and [scene.node_tree] readable,
    the configurator returns normally and leaves [oidn_configured]. *)
Lemma setup_oidn_denoising_ok (on_missing : missing_attr_write) (w : world) :
  assignable on_missing oidn_scene_fields (scene_cycles_of w) →
  nodes_readable (scene (ctx w)) →
  setup_oidn_denoising on_missing w
  = (on_ctx (oidn_configured on_missing) w, inr tt).
Proof.
  intros Hw Hr.
  pose proof (assignable_lookup _ _ _ "use_denoising" Hw ltac:(in_list)) as H1.
  pose proof (assignable_lookup _ _ _ "denoiser" Hw ltac:(in_list)) as H2.
  pose proof (assignable_lookup _ _ _ "denoising_store_passes" Hw
                ltac:(in_list)) as H3.
  pose proof (assignable_lookup _ _ _ "denoising_prefilter" Hw
                ltac:(in_list)) as H4.
  pose proof (assignable_lookup _ _ _ "denoising_quality" Hw
                ltac:(in_list)) as H5.
  unfold setup_oidn_denoising.
  step_accept H1. step_accept H2. step_accept H3. step_accept H4.
  step_accept H5.
  step_eq vl_set_if_present_eq. step_eq vl_set_if_present_eq.
  step_eq scene_cycles_set_if_present_eq.
  step_eq scene_cycles_set_if_present_eq.
  step_eq render_set_if_present_eq. step_eq system_set_if_present_eq.
  erewrite bind_ok
    by (apply in_scene_eval_is, nodes_in_use_readable; exact Hr).
  cbv beta.
  unfold oidn_configured. cbv zeta.
  match goal with |- context [if ?b then _ else _] =>
    change b with (use_nodes (scene (ctx w))
                   && bool_decide (is_Some (node_tree (scene (ctx w)))))
  end.
  clear Hw Hr H1 H2 H3 H4 H5.
  destruct (use_nodes (scene (ctx w))
            && bool_decide (is_Some (node_tree (scene (ctx w))))) eqn:Hon.
  - rewrite denoise_nodes_loop_eq.
    destruct w as [[[r [d a] un hnt nt] vl p] out]. simpl in Hon.
    unfold on_ctx, set_ctx. simpl. by rewrite Hon.
  - destruct w as [[[r [d a] un hnt nt] vl p] out]. simpl in Hon.
    unfold on_ctx, set_ctx. simpl. by rewrite Hon.
Qed.

Ltac step_present E :=
  erewrite bind_ok by
    (apply scene_cycles_set_ok; right; rewrite ?scene_cycles_of_upd;
     rewrite ?lookup_insert_ne by done; by rewrite E);
  cbv beta.

Lemma on_ctx_upd_id (w : world) : on_ctx (upd_cycles_attrs (λ a, a)) w = w.
Proof. by destruct w as [[[r [d a] un hnt nt] vl p] out]. Qed.

Ltac raise_with E f :=
  erewrite bind_raise by
    (apply scene_cycles_set_raises; rewrite ?scene_cycles_of_upd;
     rewrite ?lookup_insert_ne by done; exact E);
  exists f; eexists; (split; [| split; [| reflexivity]]); [in_list | exact E].

(** On a host that refuses new attributes, the configurator raises at the
    first unprobed attribute that is missing; only [scene.cycles] differs
    from the state it started in. *)
Lemma setup_oidn_denoising_raises_state (w : world) :
  ¬ Forall (λ name, is_Some (scene_cycles_of w !! name)) oidn_scene_fields →
  ∃ f name,
    name ∈ oidn_scene_fields ∧ scene_cycles_of w !! name = None ∧
    setup_oidn_denoising RaiseAttributeError w
    = (on_ctx (upd_cycles_attrs f) w,
       inl (no_attribute "CyclesRenderSettings" name)).
Proof.
  intros Hmissing. unfold setup_oidn_denoising, oidn_scene_fields in *.
  destruct (scene_cycles_of w !! "use_denoising") eqn:E1; cycle 1.
  { erewrite bind_raise by (apply scene_cycles_set_raises; exact E1).
    exists (λ a, a), "use_denoising". rewrite on_ctx_upd_id.
    split; [in_list | by split]. }
  step_present E1.
  destruct (scene_cycles_of w !! "denoiser") eqn:E2; cycle 1.
  { raise_with E2 (λ a : attrs, <["use_denoising":=VBool true]> a). }
  step_present E2.
  destruct (scene_cycles_of w !! "denoising_store_passes") eqn:E3; cycle 1.
  { raise_with E3 (λ a : attrs,
      <["denoiser":=VStr "OPENIMAGEDENOISE"]>
        (<["use_denoising":=VBool true]> a)). }
  step_present E3.
  destruct (scene_cycles_of w !! "denoising_prefilter") eqn:E4; cycle 1.
  { raise_with E4 (λ a : attrs,
      <["denoising_store_passes":=VBool true]>
        (<["denoiser":=VStr "OPENIMAGEDENOISE"]>
           (<["use_denoising":=VBool true]> a))). }
  step_present E4.
  destruct (scene_cycles_of w !! "denoising_quality") eqn:E5; cycle 1.
  { raise_with E5 (λ a : attrs,
      <["denoising_prefilter":=VStr "ACCURATE"]>
        (<["denoising_store_passes":=VBool true]>
           (<["denoiser":=VStr "OPENIMAGEDENOISE"]>
              (<["use_denoising":=VBool true]> a)))). }
  destruct Hmissing. repeat constructor; by eexists.
Qed.

(** Where the scene does not define [node_tree] and [use_nodes] is on, the
    configurator raises at its loop over the nodes, after all its
    assignments. *)
Lemma setup_oidn_denoising_raises_nodes (on_missing : missing_attr_write)
  (w : world) :
  assignable on_missing oidn_scene_fields (scene_cycles_of w) →
  ¬ nodes_readable (scene (ctx w)) →
  setup_oidn_denoising on_missing w
  = (on_ctx (oidn_attrs_configured on_missing) w,
     inl (no_attribute "Scene" "node_tree")).
Proof.
  intros Hw Hr.
  pose proof (assignable_lookup _ _ _ "use_denoising" Hw ltac:(in_list)) as H1.
  pose proof (assignable_lookup _ _ _ "denoiser" Hw ltac:(in_list)) as H2.
  pose proof (assignable_lookup _ _ _ "denoising_store_passes" Hw
                ltac:(in_list)) as H3.
  pose proof (assignable_lookup _ _ _ "denoising_prefilter" Hw
                ltac:(in_list)) as H4.
  pose proof (assignable_lookup _ _ _ "denoising_quality" Hw
                ltac:(in_list)) as H5.
  unfold setup_oidn_denoising.
  step_accept H1. step_accept H2. step_accept H3. step_accept H4.
  step_accept H5.
  step_eq vl_set_if_present_eq. step_eq vl_set_if_present_eq.
  step_eq scene_cycles_set_if_present_eq.
  step_eq scene_cycles_set_if_present_eq.
  step_eq render_set_if_present_eq. step_eq system_set_if_present_eq.
  erewrite bind_raise
    by (apply in_scene_eval_is, nodes_in_use_unreadable; exact Hr).
  reflexivity.
Qed.

(** The outcome of the configurator, whatever the host. *)
Lemma setup_oidn_denoising_outcome (on_missing : missing_attr_write)
  (w : world) :
  (assignable on_missing oidn_scene_fields (scene_cycles_of w) ∧
   nodes_readable (scene (ctx w)) ∧
   setup_oidn_denoising on_missing w
   = (on_ctx (oidn_configured on_missing) w, inr tt)) ∨
  (assignable on_missing oidn_scene_fields (scene_cycles_of w) ∧
   ¬ nodes_readable (scene (ctx w)) ∧
   setup_oidn_denoising on_missing w
   = (on_ctx (oidn_attrs_configured on_missing) w,
      inl (no_attribute "Scene" "node_tree"))) ∨
  (on_missing = RaiseAttributeError ∧
   ∃ f name,
     name ∈ oidn_scene_fields ∧ scene_cycles_of w !! name = None ∧
     setup_oidn_denoising on_missing w
     = (on_ctx (upd_cycles_attrs f) w,
        inl (no_attribute "CyclesRenderSettings" name))).
Proof.
  destruct (decide (assignable on_missing oidn_scene_fields (scene_cycles_of w)))
    as [Hw | Hw].
  - destruct (decide (nodes_readable (scene (ctx w)))) as [Hr | Hr].
    + left. by rewrite setup_oidn_denoising_ok.
    + right; left. by rewrite setup_oidn_denoising_raises_nodes.
  - right; right.
    assert (on_missing = RaiseAttributeError) as ->.
    { destruct on_missing; [done | |]; destruct Hw; by intros ?. }
    split; [done|]. apply setup_oidn_denoising_raises_state.
    intros HF. apply Hw. by intros _.
Qed.

(** A normal return of the configurator leaves [oidn_configured], and can
    only happen when no unprobed assignment was refused and the read of
    [scene.node_tree] found the attribute. *)
Lemma setup_oidn_denoising_returns (on_missing : missing_attr_write)
  (w w' : world) (r : unit) :
  setup_oidn_denoising on_missing w = (w', inr r) →
  assignable on_missing oidn_scene_fields (scene_cycles_of w) ∧
  nodes_readable (scene (ctx w)) ∧
  w' = on_ctx (oidn_configured on_missing) w.
Proof.
  intros Hrun.
  destruct (setup_oidn_denoising_outcome on_missing w)
    as [(Hw & Hr & Heq) | [(_ & _ & Heq) | (_ & f & name & _ & _ & Heq)]];
    rewrite Heq in Hrun; [|discriminate..].
  by injection Hrun as <-.
Qed.








(** The hypothesis on [node_tree] in C1 is needed: with the five
    attributes defined, the configurator still raises on a host whose
    scene has [use_nodes] on and does not define [node_tree]. *)
Example setup_oidn_denoising_no_node_tree :
  let w := on_ctx (upd_cycles_attrs (λ _, full_cycles_attrs))
             no_node_tree_host in
  Forall (λ name, is_Some (scene_cycles_of w !! name)) oidn_scene_fields ∧
  snd (setup_oidn_denoising DropWrite w)
  = inl (AttributeError "'Scene' object has no attribute 'node_tree'").
Proof.
  split.
  - repeat constructor; vm_compute; by eexists.
  - vm_compute. reflexivity.
Qed.

(** The [None] branch of C9 on a host with a CPU only. *)
Example setup_gpu_rendering_cpu_only :
  let r := setup_gpu_rendering
             (example_host "BLENDER_EEVEE" full_cycles_attrs cpu_only_devices) in
  snd r = inr None ∧
  engine (render (scene (ctx (fst r)))) = "CYCLES" ∧
  device (cycles (scene (ctx (fst r)))) = "GPU".
Proof. vm_compute. by repeat split. Qed.

(** ** Orchestrator *)

Lemma setup_gpu_rendering_selected (w : world) (kind : string) :
  selected_kind (devices (prefs_of w)) = Some kind →
  setup_gpu_rendering w = (gpu_configured kind w, inr (Some kind)).
Proof.
  unfold selected_kind. rewrite setup_gpu_rendering_eq. cbv zeta.
  destruct (any_device_of "OPTIX" _); [by intros [= <-]|].
  destruct (any_device_of "CUDA" _); [by intros [= <-] | done].
Qed.

Lemma selected_kind_some (ds : list compute_device) :
  (∃ d, d ∈ ds ∧ (d_type d = "OPTIX" ∨ d_type d = "CUDA")) →
  selected_kind ds = Some "OPTIX" ∨ selected_kind ds = Some "CUDA".
Proof.
  intros (d & Hin & Hty). unfold selected_kind.
  destruct (any_device_of "OPTIX" ds) eqn:Hoptix; [by left|].
  destruct (any_device_of "CUDA" ds) eqn:Hcuda; [by right|].
  destruct Hty as [Hty | Hty].
  - assert (any_device_of "OPTIX" ds = true)
      by (apply any_device_of_spec; eauto). congruence.
  - assert (any_device_of "CUDA" ds = true)
      by (apply any_device_of_spec; eauto). congruence.
Qed.

Lemma selected_kind_gpu (ds : list compute_device) (kind : string) :
  selected_kind ds = Some kind → kind = "OPTIX" ∨ kind = "CUDA".
Proof.
  unfold selected_kind.
  destruct (any_device_of "OPTIX" ds); [intros [= <-]; by left|].
  destruct (any_device_of "CUDA" ds); [intros [= <-]; by right | done].
Qed.

Lemma selected_kind_has_gpu (ds : list compute_device) :
  (∃ d, d ∈ ds ∧ (d_type d = "OPTIX" ∨ d_type d = "CUDA"))
  ↔ ∃ kind, selected_kind ds = Some kind.
Proof.
  split.
  - intros H. destruct (selected_kind_some _ H); eauto.
  - intros [kind Hsel]. unfold selected_kind in Hsel.
    destruct (any_device_of "OPTIX" ds) eqn:Ho.
    { apply any_device_of_spec in Ho as (d & ? & ?). exists d. auto. }
    destruct (any_device_of "CUDA" ds) eqn:Hc; [|done].
    apply any_device_of_spec in Hc as (d & ? & ?). exists d. auto.
Qed.

Lemma selected_kind_none (ds : list compute_device) :
  selected_kind ds = None ↔
  ∀ d, d ∈ ds → d_type d ≠ "OPTIX" ∧ d_type d ≠ "CUDA".
Proof.
  split.
  - intros Hsel d Hin.
    assert (Hno : ¬ ∃ kind, selected_kind ds = Some kind)
      by (rewrite Hsel; by intros [? ?]).
    rewrite <- selected_kind_has_gpu in Hno.
    split; intros Hty; apply Hno; exists d; auto.
  - intros Hall. destruct (selected_kind ds) as [kind|] eqn:Hsel; [|done].
    assert (Hex : ∃ kind, selected_kind ds = Some kind) by eauto.
    apply selected_kind_has_gpu in Hex as (d & Hin & Hty).
    destruct (Hall d Hin). by destruct Hty.
Qed.

Lemma reaches_configurator_iff (w : world) :
  reaches_configurator w ↔
  engine (render (scene (ctx w))) = "CYCLES" ∧
  (∃ kind, selected_kind (devices (prefs_of w)) = Some kind) ∧
  check_denoising_enabled (ctx w) = inr true.
Proof. unfold reaches_configurator. by rewrite selected_kind_has_gpu. Qed.

Lemma scene_cycles_getattr_ok (name : string) (v : value) (w : world) :
  scene_cycles_of w !! name = Some v →
  in_scene_cycles (zoom cycles_attrs set_cycles_attrs
    (getattr "CyclesRenderSettings" name)) w = (w, inr v).
Proof.
  intros H. unfold in_scene_cycles, in_scene, in_ctx, zoom, getattr.
  change (cycles_attrs (cycles (scene (ctx w)))) with (scene_cycles_of w).
  rewrite H. by destruct w as [[[r [d a] un hnt nt] vl p] out].
Qed.

Lemma scene_cycles_getattr_raises (name : string) (w : world) :
  scene_cycles_of w !! name = None →
  in_scene_cycles (zoom cycles_attrs set_cycles_attrs
    (getattr "CyclesRenderSettings" name)) w
  = (w, inl (no_attribute "CyclesRenderSettings" name)).
Proof.
  intros H. unfold in_scene_cycles, in_scene, in_ctx, zoom, getattr.
  change (cycles_attrs (cycles (scene (ctx w)))) with (scene_cycles_of w).
  rewrite H. by destruct w as [[[r [d a] un hnt nt] vl p] out].
Qed.

Lemma print_enabled_devices_eq (ds : list compute_device) (w : world) :
  print_enabled_devices ds w
  = (World (ctx w) (stdout w ++ enabled_lines ds), inr tt).
Proof.
  revert w. induction ds as [|d ds IH]; intros w; simpl.
  - rewrite app_nil_r. by destruct w.
  - destruct (d_use d).
    + erewrite bind_ok by apply print_eq. rewrite IH. simpl.
      by rewrite <- app_assoc.
    + erewrite bind_ok by reflexivity. by rewrite IH.
Qed.

(** *** What the configurator leaves on each object *)

Lemma oidn_attrs_configured_parts (on_missing : missing_attr_write)
  (c : context) :
  let c' := oidn_attrs_configured on_missing c in
  engine (render (scene c')) = engine (render (scene c)) ∧
  device (cycles (scene c')) = device (cycles (scene c)) ∧
  use_nodes (scene c') = use_nodes (scene c) ∧
  has_node_tree (scene c') = has_node_tree (scene c) ∧
  vl_cycles (view_layer c') = vl_cycles (view_layer c) ∧
  addon_cycles (preferences c') = addon_cycles (preferences c) ∧
  node_tree (scene c') = node_tree (scene c) ∧
  cycles_attrs (cycles (scene c'))
    = oidn_cycles_attrs on_missing (cycles_attrs (cycles (scene c))).
Proof. by repeat split. Qed.

Lemma oidn_configured_parts (on_missing : missing_attr_write) (c : context) :
  let c' := oidn_configured on_missing c in
  engine (render (scene c')) = engine (render (scene c)) ∧
  device (cycles (scene c')) = device (cycles (scene c)) ∧
  use_nodes (scene c') = use_nodes (scene c) ∧
  has_node_tree (scene c') = has_node_tree (scene c) ∧
  vl_cycles (view_layer c') = vl_cycles (view_layer c) ∧
  addon_cycles (preferences c') = addon_cycles (preferences c) ∧
  render_attrs (render (scene c'))
    = set_if_present "use_compositor_gpu" (VBool true)
        (render_attrs (render (scene c))) ∧
  vl_attrs (view_layer c')
    = set_if_present "use_pass_diffuse_color" (VBool true)
        (set_if_present "use_pass_normal" (VBool true)
           (vl_attrs (view_layer c))) ∧
  system (preferences c')
    = set_if_present "compositor_device" (VStr "GPU")
        (system (preferences c)) ∧
  node_tree (scene c')
    = (if use_nodes (scene c)
       then map oidn_node <$> node_tree (scene c)
       else node_tree (scene c)) ∧
  cycles_attrs (cycles (scene c'))
    = oidn_cycles_attrs on_missing (cycles_attrs (cycles (scene c))).
Proof.
  destruct c as [[r cy un hnt nt] vl p]. unfold oidn_configured. cbv zeta.
  destruct un, nt as [ns|]; simpl; by repeat split.
Qed.

Lemma oidn_configured_cycles (on_missing : missing_attr_write) (c : context) :
  cycles_attrs (cycles (scene (oidn_configured on_missing c)))
  = oidn_cycles_attrs on_missing (cycles_attrs (cycles (scene c))).
Proof. by destruct (oidn_configured_parts on_missing c) as (_&_&_&_&_&_&_&_&_&_&H). Qed.

Lemma set_if_present_is_Some (name name' : string) (v : value) (o : attrs) :
  is_Some (set_if_present name v o !! name') ↔ is_Some (o !! name').
Proof.
  rewrite <- !elem_of_dom. by rewrite set_if_present_dom.
Qed.

Lemma oidn_cycles_attrs_lookup_ne (on_missing : missing_attr_write)
  (name : string) (a : attrs) :
  name ∉ oidn_scene_fields →
  name ≠ "use_denoising_gpu" → name ≠ "denoising_use_gpu" →
  oidn_cycles_attrs on_missing a !! name = a !! name.
Proof.
  intros Hnot H1 H2. unfold oidn_cycles_attrs, oidn_scene_cycles.
  rewrite !set_if_present_lookup_ne by done.
  unfold oidn_scene_fields in Hnot.
  rewrite !write_attr_lookup_ne; [done|..];
    intros <-; apply Hnot; in_list.
Qed.

(** Each of the five unprobed assignments takes effect as [written]
    tells. *)
Lemma oidn_cycles_attrs_written (on_missing : missing_attr_write) (a : attrs) :
  Forall (λ p, oidn_cycles_attrs on_missing a !! p.1
               = written on_missing (a !! p.1) p.2) oidn_scene_writes.
Proof.
  unfold oidn_cycles_attrs, oidn_scene_cycles, oidn_scene_writes.
  repeat constructor; simpl;
    rewrite !set_if_present_lookup_ne by done;
    rewrite ?write_attr_lookup_ne by done;
    rewrite write_attr_lookup_eq;
    by rewrite ?write_attr_lookup_ne by done.
Qed.

Lemma oidn_cycles_attrs_is_Some (on_missing : missing_attr_write)
  (name : string) (a : attrs) :
  is_Some (a !! name) → is_Some (oidn_cycles_attrs on_missing a !! name).
Proof.
  intros H. unfold oidn_cycles_attrs.
  rewrite !set_if_present_is_Some. unfold oidn_scene_cycles.
  by repeat apply write_attr_is_Some.
Qed.

Lemma tile_attrs_lookup_ne (on_missing : missing_attr_write) (name : string)
  (a : attrs) :
  name ≠ "use_auto_tile" → name ≠ "tile_x" → name ≠ "tile_y" →
  tile_attrs on_missing a !! name = a !! name.
Proof.
  intros H1 H2 H3. unfold tile_attrs.
  destruct (hasattr "use_auto_tile" a); [|done].
  by rewrite !write_attr_lookup_ne.
Qed.

(** *** The tile-size block, given the value of its probe *)

Lemma tile_block_ok (on_missing : missing_attr_write) (w : world) :
  (hasattr "use_auto_tile" (scene_cycles_of w) = true →
   assignable on_missing tile_fields (scene_cycles_of w)) →
  (if hasattr "use_auto_tile" (scene_cycles_of w)
   then scene_cycles_set on_missing "use_auto_tile" (VBool false) ;;
        scene_cycles_set on_missing "tile_x" (VInt 256) ;;
        scene_cycles_set on_missing "tile_y" (VInt 256)
   else mret tt) w
  = (on_ctx (upd_cycles_attrs (tile_attrs on_missing)) w, inr tt).
Proof.
  intros Hw.
  assert (Hsame : on_ctx (upd_cycles_attrs (tile_attrs on_missing)) w
                  = on_ctx (upd_cycles_attrs
                      (λ _, tile_attrs on_missing (scene_cycles_of w))) w)
    by reflexivity.
  rewrite Hsame. unfold tile_attrs.
  destruct (hasattr "use_auto_tile" (scene_cycles_of w)) eqn:Hauto.
  - specialize (Hw eq_refl).
    pose proof (assignable_lookup _ _ _ "tile_x" Hw ltac:(in_list)) as Hx.
    pose proof (assignable_lookup _ _ _ "tile_y" Hw ltac:(in_list)) as Hy.
    assert (Ht : on_missing = RaiseAttributeError
                 → is_Some (scene_cycles_of w !! "use_auto_tile"))
      by (intros _; by apply hasattr_true).
    step_accept Ht. step_accept Hx.
    rewrite scene_cycles_set_accepts
      by (intros ?; rewrite ?scene_cycles_of_upd;
          repeat apply write_attr_is_Some; by apply Hy).
    reflexivity.
  - by destruct w as [[[r [d a] un hnt nt] vl p] out].
Qed.

Lemma tile_block_raises_state (w : world) :
  hasattr "use_auto_tile" (scene_cycles_of w) = true →
  ¬ Forall (λ name, is_Some (scene_cycles_of w !! name)) tile_fields →
  ∃ f name,
    name ∈ tile_fields ∧ scene_cycles_of w !! name = None ∧
    (if hasattr "use_auto_tile" (scene_cycles_of w)
     then scene_cycles_set RaiseAttributeError "use_auto_tile" (VBool false) ;;
          scene_cycles_set RaiseAttributeError "tile_x" (VInt 256) ;;
          scene_cycles_set RaiseAttributeError "tile_y" (VInt 256)
     else mret tt) w
    = (on_ctx (upd_cycles_attrs f) w,
       inl (no_attribute "CyclesRenderSettings" name)).
Proof.
  intros Hauto Hmissing. rewrite Hauto.
  apply hasattr_true in Hauto as [v0 E0]. unfold tile_fields in *.
  step_present E0.
  destruct (scene_cycles_of w !! "tile_x") eqn:Ex; cycle 1.
  { raise_with Ex (λ a : attrs, <["use_auto_tile":=VBool false]> a). }
  step_present Ex.
  destruct (scene_cycles_of w !! "tile_y") eqn:Ey.
  { destruct Hmissing. repeat constructor; by eexists. }
  rewrite scene_cycles_set_raises
    by (rewrite ?scene_cycles_of_upd;
        rewrite ?lookup_insert_ne by done; exact Ey).
  exists (λ a : attrs, <["tile_x":=VInt 256]> (<["use_auto_tile":=VBool false]> a)).
  exists "tile_y". split; [in_list | by split].
Qed.

Lemma missing_name (a : attrs) (names : list string) :
  ¬ Forall (λ name, is_Some (a !! name)) names →
  ∃ name, name ∈ names ∧ a !! name = None.
Proof.
  intros H. apply not_Forall_Exists in H; [|apply _].
  apply Exists_exists in H as (name & Hin & Hnot). exists name. split; [done|].
  simpl in Hnot. by apply eq_None_not_Some.
Qed.

Lemma any_device_of_select (kind kind' : string) (ds : list compute_device) :
  any_device_of kind (select_devices kind' ds) = any_device_of kind ds.
Proof.
  unfold any_device_of, select_devices.
  induction ds as [|d ds IH]; simpl; [done|]. by rewrite IH.
Qed.

Lemma select_devices_idemp (kind : string) (ds : list compute_device) :
  select_devices kind (select_devices kind ds) = select_devices kind ds.
Proof.
  unfold select_devices. induction ds as [|d ds IH]; simpl; [done|].
  by rewrite IH.
Qed.

Lemma selected_kind_cases (ds : list compute_device) :
  (selected_kind ds = Some "OPTIX" ∧ any_device_of "OPTIX" ds = true) ∨
  (selected_kind ds = Some "CUDA" ∧ any_device_of "OPTIX" ds = false
   ∧ any_device_of "CUDA" ds = true) ∨
  (selected_kind ds = None ∧ any_device_of "OPTIX" ds = false
   ∧ any_device_of "CUDA" ds = false).
Proof.
  unfold selected_kind.
  destruct (any_device_of "OPTIX" ds); [by left|].
  destruct (any_device_of "CUDA" ds); [right; by left | right; by right].
Qed.

(** The selector in terms of [selected_kind]: the backend falls back to
    CUDA when no kind is selected. *)
Lemma setup_gpu_rendering_run (w : world) :
  setup_gpu_rendering w
  = (gpu_configured (default "CUDA" (selected_kind (devices (prefs_of w)))) w,
     inr (selected_kind (devices (prefs_of w)))).
Proof.
  rewrite setup_gpu_rendering_eq. cbv zeta. unfold selected_kind.
  destruct (any_device_of "OPTIX" _); [done|].
  by destruct (any_device_of "CUDA" _).
Qed.

Lemma truthy_kind_selected (ds : list compute_device) (kind : string) :
  selected_kind ds = Some kind → truthy_kind (Some kind) = true.
Proof. intros H. by destruct (selected_kind_gpu _ _ H) as [-> | ->]. Qed.

(** *** The paths of the orchestrator *)

(** The run on a scene whose engine is not CYCLES. *)
Lemma setup_gpu_and_denoiser_skip (on_missing : missing_attr_write)
  (w : world) :
  engine (render (scene (ctx w))) ≠ "CYCLES" →
  setup_gpu_and_denoiser on_missing w
  = (World (ctx w) (stdout w ++ ["Cycles not active, skipping setup."]),
     inr tt).
Proof.
  intros Heng. apply String.eqb_neq in Heng.
  unfold setup_gpu_and_denoiser.
  step_eq @in_scene_render_gets. rewrite Heng. cbn [negb].
  apply print_eq.
Qed.

(** The run that finds no GPU device. *)
Lemma setup_gpu_and_denoiser_no_gpu (on_missing : missing_attr_write)
  (w : world) :
  engine (render (scene (ctx w))) = "CYCLES" →
  selected_kind (devices (prefs_of w)) = None →
  setup_gpu_and_denoiser on_missing w
  = (World (gpu_ctx "CUDA" (ctx w))
       (stdout w ++ ["Configuring GPU rendering...";
                     "No GPU devices found, aborting."]),
     inr tt).
Proof.
  intros Heng Hsel. unfold setup_gpu_and_denoiser.
  step_eq @in_scene_render_gets. rewrite Heng, String.eqb_refl. cbn [negb].
  step_eq print_eq.
  erewrite bind_ok by apply setup_gpu_rendering_run.
  cbv beta.
  change (prefs_of (World (ctx w) _)) with (prefs_of w).
  rewrite Hsel. cbn [truthy_kind negb default].
  rewrite print_eq. unfold gpu_configured. simpl.
  by rewrite <- app_assoc.
Qed.

(** Past the selector: the run up to the call of the detector. *)
Ltac past_selector Heng Hsel :=
  unfold setup_gpu_and_denoiser;
  step_eq @in_scene_render_gets; rewrite Heng, String.eqb_refl; cbn [negb];
  step_eq print_eq;
  erewrite bind_ok by (apply setup_gpu_rendering_selected; exact Hsel);
  cbv beta;
  rewrite (truthy_kind_selected _ _ Hsel); cbn [negb default];
  step_eq print_eq.

(** The run whose detector raises: the exception leaves the orchestrator
    after the selector has run. *)
Lemma setup_gpu_and_denoiser_detector_raises (on_missing : missing_attr_write)
  (w : world) (kind : string) (e : exn) :
  engine (render (scene (ctx w))) = "CYCLES" →
  selected_kind (devices (prefs_of w)) = Some kind →
  check_denoising_enabled (ctx w) = inl e →
  setup_gpu_and_denoiser on_missing w
  = (World (gpu_ctx kind (ctx w))
       (stdout w ++ ["Configuring GPU rendering...";
                     "GPU setup complete: " +:+ kind]),
     inl e).
Proof.
  intros Heng Hsel Hden. past_selector Heng Hsel.
  erewrite bind_raise by (apply in_ctx_eval_is; exact Hden).
  unfold gpu_configured. simpl. by rewrite <- !app_assoc.
Qed.

(** The run that finds a GPU device and no denoising. *)
Lemma setup_gpu_and_denoiser_no_denoising (on_missing : missing_attr_write)
  (w : world) (kind : string) :
  engine (render (scene (ctx w))) = "CYCLES" →
  selected_kind (devices (prefs_of w)) = Some kind →
  check_denoising_enabled (ctx w) = inr false →
  setup_gpu_and_denoiser on_missing w
  = (World (gpu_ctx kind (ctx w))
       (stdout w ++ ["Configuring GPU rendering...";
                     "GPU setup complete: " +:+ kind;
                     "Denoising not enabled in file; skipping denoiser setup."]),
     inr tt).
Proof.
  intros Heng Hsel Hden. past_selector Heng Hsel.
  erewrite bind_ok by (apply in_ctx_eval_is; exact Hden).
  cbv beta. cbn [negb].
  rewrite print_eq. unfold gpu_configured. simpl.
  by rewrite <- !app_assoc.
Qed.

(** What the summary reads of [scene.cycles] after the configurator and
    the tile-size block. *)
Lemma final_attrs_lookup_five (on_missing : missing_attr_write) (a : attrs) :
  Forall (λ p, tile_attrs on_missing (oidn_cycles_attrs on_missing a) !! p.1
               = written on_missing (a !! p.1) p.2) oidn_scene_writes.
Proof.
  pose proof (oidn_cycles_attrs_written on_missing a) as H.
  unfold oidn_scene_writes in *.
  repeat (apply Forall_cons in H as [? H]).
  repeat constructor; by rewrite tile_attrs_lookup_ne.
Qed.

Lemma hasattr_oidn_tile (on_missing : missing_attr_write) (a : attrs) :
  hasattr "use_auto_tile" (oidn_cycles_attrs on_missing a)
  = hasattr "use_auto_tile" a.
Proof.
  unfold hasattr.
  by rewrite oidn_cycles_attrs_lookup_ne
    by (try done; unfold oidn_scene_fields; not_in_list).
Qed.

Lemma assignable_oidn_cycles_attrs (on_missing : missing_attr_write)
  (names : list string) (a : attrs) :
  assignable on_missing names a →
  assignable on_missing names (oidn_cycles_attrs on_missing a).
Proof.
  intros H Hpol. specialize (H Hpol).
  eapply Forall_impl; [exact H|]. intros name Hn.
  by apply oidn_cycles_attrs_is_Some.
Qed.

(** A full run on a host where it completes, with what it prints. *)
Lemma setup_gpu_and_denoiser_full (on_missing : missing_attr_write)
  (w : world) (kind : string) :
  engine (render (scene (ctx w))) = "CYCLES" →
  selected_kind (devices (prefs_of w)) = Some kind →
  check_denoising_enabled (ctx w) = inr true →
  completes on_missing w →
  setup_gpu_and_denoiser on_missing w
  = (World (final_ctx on_missing kind (ctx w))
       (stdout w ++ success_lines kind
        ++ enabled_lines (select_devices kind (devices (prefs_of w)))),
     inr tt).
Proof.
  intros Heng Hsel Hden (Hw & Hr & Htile & Hread).
  past_selector Heng Hsel.
  erewrite bind_ok by (apply in_ctx_eval_is; exact Hden).
  cbv beta. cbn [negb].
  step_eq print_eq.
  erewrite bind_ok by (apply setup_oidn_denoising_ok; [exact Hw | exact Hr]).
  cbv beta.
  step_eq @in_scene_cycles_gets.
  match goal with |- context [on_ctx (oidn_configured on_missing) ?w0] =>
    set (W := on_ctx (oidn_configured on_missing) w0) end.
  assert (HW : scene_cycles_of W
               = oidn_cycles_attrs on_missing (scene_cycles_of w))
    by apply (oidn_configured_cycles on_missing (gpu_ctx kind (ctx w))).
  assert (Hctx : ctx W = oidn_configured on_missing (gpu_ctx kind (ctx w)))
    by reflexivity.
  assert (Hout : stdout W
                 = (((stdout w ++ ["Configuring GPU rendering..."])
                     ++ ["GPU setup complete: " +:+ kind])
                     ++ ["Denoising enabled: forcing OIDN configuration..."])%list)
    by reflexivity.
  change (cycles_attrs (cycles (scene (ctx W)))) with (scene_cycles_of W).
  clearbody W.
  assert (Hden' : tile_attrs on_missing (scene_cycles_of W) !! "denoiser"
                  = Some (VStr "OPENIMAGEDENOISE")).
  { rewrite HW.
    pose proof (final_attrs_lookup_five on_missing (scene_cycles_of w)) as HF.
    unfold oidn_scene_writes in HF.
    apply Forall_cons in HF as [_ HF]. apply Forall_cons in HF as [HF _].
    simpl in HF. rewrite HF.
    pose proof (assignable_lookup _ _ _ "denoiser" Hw ltac:(in_list)) as Hd.
    destruct on_missing.
    - by destruct (Hd eq_refl) as [? ->].
    - by destruct (scene_cycles_of w !! "denoiser").
    - by destruct (Hread eq_refl) as [? ->]. }
  erewrite bind_ok; cycle 1.
  { apply tile_block_ok. rewrite HW, hasattr_oidn_tile. intros Hauto.
    by apply assignable_oidn_cycles_attrs, Htile. }
  cbv beta.
  step_eq @in_cycles_prefs_gets. step_eq print_eq. step_eq print_eq.
  step_eq @in_scene_cycles_gets. step_eq print_eq.
  erewrite bind_ok by (apply scene_cycles_getattr_ok; exact Hden').
  cbv beta.
  step_eq print_eq. step_eq print_eq.
  rewrite print_enabled_devices_eq.
  destruct (oidn_configured_parts on_missing (gpu_ctx kind (ctx w)))
    as (_ & Hd & _ & _ & _ & Hp & _).
  unfold final_ctx. rewrite <- Hctx in *.
  unfold on_ctx, set_ctx, prefs_of. cbn [ctx stdout id].
  change (addon_cycles (preferences
            (upd_cycles_attrs (tile_attrs on_missing) (ctx W))))
    with (addon_cycles (preferences (ctx W))).
  change (device (cycles (scene
            (upd_cycles_attrs (tile_attrs on_missing) (ctx W)))))
    with (device (cycles (scene (ctx W)))).
  rewrite Hp, Hd, Hout.
  cbn [gpu_ctx preferences addon_cycles compute_device_type devices
       scene cycles device str_value].
  unfold success_lines. rewrite <- !app_assoc. reflexivity.
Qed.

Lemma not_assignable (on_missing : missing_attr_write) (names : list string)
  (a : attrs) :
  ¬ assignable on_missing names a →
  on_missing = RaiseAttributeError ∧
  ¬ Forall (λ name, is_Some (a !! name)) names.
Proof.
  intros Hn. split.
  - destruct on_missing; [done | |]; destruct Hn; by intros ?.
  - intros HF. apply Hn. by intros _.
Qed.

(** A run past the three guards on a host where it does not complete: it
    raises after the three progress lines, or, where a dropped assignment
    left [denoiser] undefined, after the first three lines of the
    summary. *)
Lemma setup_gpu_and_denoiser_raises (on_missing : missing_attr_write)
  (w : world) (kind : string) :
  engine (render (scene (ctx w))) = "CYCLES" →
  selected_kind (devices (prefs_of w)) = Some kind →
  check_denoising_enabled (ctx w) = inr true →
  ¬ completes on_missing w →
  ∃ c' lines e,
    setup_gpu_and_denoiser on_missing w
    = (World c' (stdout w ++ progress_lines kind ++ lines), inl e) ∧
    addon_cycles (preferences c')
      = addon_cycles (preferences (gpu_ctx kind (ctx w))) ∧
    raise_explained w e ∧
    (on_missing ≠ DropWrite → lines = []).
Proof.
  intros Heng Hsel Hden Hnot. past_selector Heng Hsel.
  erewrite bind_ok by (apply in_ctx_eval_is; exact Hden).
  cbv beta. cbn [negb].
  step_eq print_eq.
  match goal with |- ∃ _ _ _, (_ ≫= _) ?w0 = _ ∧ _ => set (W0 := w0) end.
  assert (HW0 : scene_cycles_of W0 = scene_cycles_of w) by reflexivity.
  assert (Hctx0 : ctx W0 = gpu_ctx kind (ctx w)) by reflexivity.
  assert (Hnodes0 : nodes_readable (scene (ctx W0))
                    ↔ nodes_readable (scene (ctx w))) by reflexivity.
  assert (Hout0 : stdout W0 = (stdout w ++ progress_lines kind)%list).
  { subst W0. unfold gpu_configured, progress_lines. simpl.
    by rewrite <- !app_assoc. }
  clearbody W0.
  destruct (setup_oidn_denoising_outcome on_missing W0)
    as [(Hw & Hr & Hcfg) | [(Hw & Hr & Hcfg) | (Hpol & f & name & Hin & Hnone & Hcfg)]].
  - (* the configurator returns *)
    erewrite bind_ok by exact Hcfg. cbv beta.
    step_eq @in_scene_cycles_gets.
    set (W := on_ctx (oidn_configured on_missing) W0).
    assert (HW : scene_cycles_of W
                 = oidn_cycles_attrs on_missing (scene_cycles_of w)).
    { rewrite <- HW0. apply (oidn_configured_cycles on_missing (ctx W0)). }
    assert (Hprefs : addon_cycles (preferences (ctx W))
                     = addon_cycles (preferences (gpu_ctx kind (ctx w)))).
    { rewrite <- Hctx0.
      by destruct (oidn_configured_parts on_missing (ctx W0))
        as (_ & _ & _ & _ & _ & Hp & _). }
    assert (Hdev : device (cycles (scene (ctx W))) = "GPU").
    { destruct (oidn_configured_parts on_missing (ctx W0))
        as (_ & Hd & _). unfold W. simpl ctx. rewrite Hd, Hctx0. reflexivity. }
    assert (Hout : stdout W = stdout W0) by reflexivity.
    change (cycles_attrs (cycles (scene (ctx W)))) with (scene_cycles_of W).
    clearbody W.
    assert (Hlook : ∀ name, name ∈ "use_auto_tile" :: tile_fields →
              scene_cycles_of W !! name = scene_cycles_of w !! name).
    { intros name Hin. rewrite HW. unfold tile_fields in Hin.
      repeat (apply elem_of_cons in Hin as [-> | Hin];
              [apply oidn_cycles_attrs_lookup_ne;
               [unfold oidn_scene_fields; not_in_list | done | done]|]).
      by apply elem_of_nil in Hin. }
    destruct (decide (hasattr "use_auto_tile" (scene_cycles_of w) = true →
                      assignable on_missing tile_fields (scene_cycles_of w)))
      as [Htile | Htile].
    + (* the tile block returns; the summary reads [denoiser] *)
      assert (Hdrop : on_missing = DropWrite ∧
                      scene_cycles_of w !! "denoiser" = None).
      { destruct (decide (on_missing = DropWrite)) as [-> | Hne].
        - split; [done|]. apply eq_None_not_Some. intros HS. apply Hnot.
          rewrite HW0 in Hw. rewrite Hnodes0 in Hr. by repeat split.
        - destruct Hnot. rewrite HW0 in Hw. rewrite Hnodes0 in Hr.
          by repeat split. }
      destruct Hdrop as [-> Hnone].
      erewrite bind_ok; cycle 1.
      { apply tile_block_ok. rewrite HW, hasattr_oidn_tile. intros Hauto.
        by apply assignable_oidn_cycles_attrs, Htile. }
      cbv beta.
      step_eq @in_cycles_prefs_gets. step_eq print_eq. step_eq print_eq.
      step_eq @in_scene_cycles_gets. step_eq print_eq.
      erewrite bind_raise; cycle 1.
      { apply scene_cycles_getattr_raises.
        match goal with |- scene_cycles_of ?X !! _ = _ =>
          change (scene_cycles_of X)
            with (tile_attrs DropWrite (scene_cycles_of W)) end.
        rewrite HW.
        pose proof (final_attrs_lookup_five DropWrite (scene_cycles_of w)) as HF.
        unfold oidn_scene_writes in HF.
        apply Forall_cons in HF as [_ HF]. apply Forall_cons in HF as [HF _].
        simpl in HF. rewrite HF, Hnone. reflexivity. }
      eexists (upd_cycles_attrs (tile_attrs DropWrite) (ctx W)),
        ["=== Final Configuration ==="; "Compute Type: " +:+ kind;
         "Render Device: GPU"], _.
      split; [|split; [exact Hprefs | split; [|done]]].
      * unfold on_ctx, set_ctx, prefs_of. cbn [ctx stdout id].
        change (addon_cycles (preferences
                  (upd_cycles_attrs (tile_attrs DropWrite) (ctx W))))
          with (addon_cycles (preferences (ctx W))).
        change (device (cycles (scene
                  (upd_cycles_attrs (tile_attrs DropWrite) (ctx W)))))
          with (device (cycles (scene (ctx W)))).
        rewrite Hprefs, Hdev, Hout, Hout0.
        cbn [gpu_ctx preferences addon_cycles compute_device_type].
        by rewrite <- !app_assoc.
      * left. exists "denoiser". split; [in_list | by split].
    + (* the tile block raises *)
      assert (Hauto : hasattr "use_auto_tile" (scene_cycles_of w) = true).
      { destruct (hasattr "use_auto_tile" (scene_cycles_of w)) eqn:E; [done|].
        destruct Htile. intros ?. congruence. }
      assert (Hna : ¬ assignable on_missing tile_fields (scene_cycles_of w))
        by (intros Ha; apply Htile; by intros _).
      destruct (not_assignable _ _ _ Hna) as [-> Htiles].
      destruct (tile_block_raises_state W) as (f & name & Hin & Hnone & Hraise).
      * unfold hasattr in *. rewrite Hlook; [done | in_list].
      * intros HF. apply Htiles. unfold tile_fields in *.
        apply Forall_cons in HF as [Hx HF]. apply Forall_cons in HF as [Hy _].
        rewrite Hlook in Hx by in_list. rewrite Hlook in Hy by in_list.
        by repeat constructor.
      * erewrite bind_raise by exact Hraise.
        exists (upd_cycles_attrs f (ctx W)), []; eexists.
        split; [|split; [exact Hprefs | split; [|done]]].
        -- unfold on_ctx, set_ctx. by rewrite Hout, Hout0, app_nil_r.
        -- left. exists name. split; [apply elem_of_app; by right|].
           split; [|done]. rewrite <- Hlook; [done | by right].
  - (* [scene.node_tree] cannot be read *)
    erewrite bind_raise by exact Hcfg.
    exists (oidn_attrs_configured on_missing (ctx W0)), []; eexists.
    split; [|split; [|split; [|done]]].
    + unfold on_ctx, set_ctx. by rewrite Hout0, app_nil_r.
    + by rewrite <- Hctx0.
    + right. by rewrite <- Hnodes0.
  - (* an unprobed assignment is refused *)
    erewrite bind_raise by exact Hcfg.
    exists (upd_cycles_attrs f (ctx W0)), []; eexists.
    split; [|split; [|split; [|done]]].
    + unfold on_ctx, set_ctx. by rewrite Hout0, app_nil_r.
    + by rewrite <- Hctx0.
    + left. exists name. split; [apply elem_of_app; by left|].
      split; [by rewrite <- HW0 | done].
Qed.

Lemma not_completes_cause (on_missing : missing_attr_write) (w : world) :
  ¬ completes on_missing w → raise_cause on_missing w.
Proof.
  intros Hnot.
  destruct (decide (assignable on_missing oidn_scene_fields (scene_cycles_of w)))
    as [Hw | Hw]; cycle 1.
  { apply not_assignable in Hw as [-> HF]. left. split; [done|].
    destruct (missing_name _ _ HF) as (name & Hin & Hn).
    exists name. split; [apply elem_of_app; by left | done]. }
  destruct (decide (nodes_readable (scene (ctx w)))) as [Hr | Hr];
    [|right; by left].
  destruct (decide (hasattr "use_auto_tile" (scene_cycles_of w) = true →
                    assignable on_missing tile_fields (scene_cycles_of w)))
    as [Ht | Ht]; cycle 1.
  { assert (Hna : ¬ assignable on_missing tile_fields (scene_cycles_of w))
      by (intros Ha; apply Ht; by intros _).
    apply not_assignable in Hna as [-> HF]. left. split; [done|].
    destruct (missing_name _ _ HF) as (name & Hin & Hn).
    exists name. split; [apply elem_of_app; by right | done]. }
  right; right.
  destruct (decide (on_missing = DropWrite)) as [-> | Hne].
  - split; [done|]. apply eq_None_not_Some. intros HS. by apply Hnot.
  - by destruct Hnot.
Qed.

(** Past its three guards the orchestrator either completes, leaving
    [final_ctx], or raises for a reason [raise_cause] gives. *)
Lemma setup_gpu_and_denoiser_past_guards (on_missing : missing_attr_write)
  (w : world) :
  reaches_configurator w →
  ∃ kind,
    selected_kind (devices (prefs_of w)) = Some kind ∧
    ((completes on_missing w ∧
      setup_gpu_and_denoiser on_missing w
      = (World (final_ctx on_missing kind (ctx w))
           (stdout w ++ success_lines kind
            ++ enabled_lines (select_devices kind (devices (prefs_of w)))),
         inr tt)) ∨
     (¬ completes on_missing w ∧
      ∃ c' lines e,
        setup_gpu_and_denoiser on_missing w
        = (World c' (stdout w ++ progress_lines kind ++ lines), inl e) ∧
        addon_cycles (preferences c')
          = addon_cycles (preferences (gpu_ctx kind (ctx w))) ∧
        raise_explained w e ∧
        (on_missing ≠ DropWrite → lines = []))).
Proof.
  intros Hreach.
  apply reaches_configurator_iff in Hreach as (He & [kind Hsel] & Hden).
  exists kind. split; [done|].
  destruct (decide (completes on_missing w)) as [Hc | Hc].
  - left. split; [done|]. by apply setup_gpu_and_denoiser_full.
  - right. split; [done|]. by apply setup_gpu_and_denoiser_raises.
Qed.

Lemma final_ctx_cycles (on_missing : missing_attr_write) (kind : string)
  (c : context) :
  cycles_attrs (cycles (scene (final_ctx on_missing kind c)))
  = tile_attrs on_missing
      (oidn_cycles_attrs on_missing (cycles_attrs (cycles (scene c)))).
Proof.
  unfold final_ctx.
  change (cycles_attrs (cycles (scene
            (upd_cycles_attrs (tile_attrs on_missing) ?c'))))
    with (tile_attrs on_missing (cycles_attrs (cycles (scene c')))).
  by rewrite oidn_configured_cycles.
Qed.

(** C6: when the active render engine is not CYCLES the orchestrator
    returns at once without raising, prints its one log line and leaves
    the whole configuration tree as it was. *)
Theorem setup_gpu_and_denoiser_not_cycles
  (on_missing : missing_attr_write) (w : world) :
  engine (render (scene (ctx w))) ≠ "CYCLES" →
  ∃ w', setup_gpu_and_denoiser on_missing w = (w', inr tt) ∧
        ctx w' = ctx w ∧
        stdout w' = (stdout w ++ ["Cycles not active, skipping setup."])%list.
Proof.
  intros Heng. apply String.eqb_neq in Heng.
  unfold setup_gpu_and_denoiser.
  step_eq @in_scene_render_gets. rewrite Heng. cbn [negb].
  rewrite print_eq. by eexists.
Qed.

Lemma setup_gpu_and_denoiser_not_cycles_witness :
  engine (render (scene (ctx
    (example_host "BLENDER_EEVEE" full_cycles_attrs example_devices))))
  ≠ "CYCLES" ∧
  ∃ w', setup_gpu_and_denoiser RaiseAttributeError
          (example_host "BLENDER_EEVEE" full_cycles_attrs example_devices)
        = (w', inr tt) ∧
        ctx w' = ctx (example_host "BLENDER_EEVEE" full_cycles_attrs
                        example_devices) ∧
        stdout w' = ["Cycles not active, skipping setup."].
Proof.
  assert (H : engine (render (scene (ctx
    (example_host "BLENDER_EEVEE" full_cycles_attrs example_devices))))
    ≠ "CYCLES") by (simpl; congruence).
  split; [exact H|].
  exact (setup_gpu_and_denoiser_not_cycles RaiseAttributeError _ H).
Defined.


(** C10 (as amended): on the full success path, when [scene.cycles] has
    [use_auto_tile] the orchestrator leaves it false, and leaves each of
    [tile_x] and [tile_y] at 256 if the host defined it or creates it on
    assignment, undefined otherwise; when [use_auto_tile] is absent, the
    three tile attributes are left as they were. *)
Theorem setup_gpu_and_denoiser_tiles
  (on_missing : missing_attr_write) (w : world) :
  reaches_configurator w →
  match setup_gpu_and_denoiser on_missing w with
  | (w', inr _) =>
      let a := scene_cycles_of w in
      let a' := scene_cycles_of w' in
      if hasattr "use_auto_tile" a
      then a' !! "use_auto_tile" = Some (VBool false) ∧
           a' !! "tile_x" = written on_missing (a !! "tile_x") (VInt 256) ∧
           a' !! "tile_y" = written on_missing (a !! "tile_y") (VInt 256)
      else a' !! "use_auto_tile" = None ∧
           a' !! "tile_x" = a !! "tile_x" ∧
           a' !! "tile_y" = a !! "tile_y"
  | (_, inl _) => raise_cause on_missing w
  end.
Proof.
  intros Hreach.
  destruct (setup_gpu_and_denoiser_past_guards on_missing w Hreach)
    as (kind & _ & [(_ & ->) | (Hnot & c' & lines & e & -> & _)]);
    [|by apply not_completes_cause].
  cbv zeta.
  match goal with |- context [scene_cycles_of (World ?c ?o)] =>
    assert (Hfin : scene_cycles_of (World c o)
                   = tile_attrs on_missing
                       (oidn_cycles_attrs on_missing (scene_cycles_of w)))
      by apply final_ctx_cycles;
    rewrite Hfin; clear Hfin end.
  unfold tile_attrs.
  assert (Hlook : ∀ name, name ∈ "use_auto_tile" :: tile_fields →
            oidn_cycles_attrs on_missing (scene_cycles_of w) !! name
            = scene_cycles_of w !! name).
  { intros name Hin. unfold tile_fields in Hin.
    repeat (apply elem_of_cons in Hin as [-> | Hin];
            [apply oidn_cycles_attrs_lookup_ne;
             [unfold oidn_scene_fields; not_in_list | done | done]|]).
    by apply elem_of_nil in Hin. }
  rewrite hasattr_oidn_tile.
  destruct (hasattr "use_auto_tile" (scene_cycles_of w)) eqn:Hauto.
  - apply hasattr_true in Hauto as [v0 Hv0].
    split; [|split].
    + rewrite !write_attr_lookup_ne by done.
      rewrite write_attr_lookup_eq, Hlook by in_list. rewrite Hv0.
      by destruct on_missing.
    + rewrite write_attr_lookup_ne by done. rewrite write_attr_lookup_eq.
      rewrite write_attr_lookup_ne by done. by rewrite Hlook by in_list.
    + rewrite write_attr_lookup_eq. rewrite !write_attr_lookup_ne by done.
      by rewrite Hlook by in_list.
  - rewrite !Hlook by in_list. split; [|done].
    unfold hasattr in Hauto. by destruct (scene_cycles_of w !! "use_auto_tile").
Qed.

(** C8: the [__main__] block exits with status 1 after printing
    ["Error: "] followed by the message of the exception when the
    orchestrator raises, and with status 0 after printing the success line
    when it returns. *)
Theorem main_exit_status (on_missing : missing_attr_write) (w : world) :
  match setup_gpu_and_denoiser on_missing w with
  | (w', inl (AttributeError msg)) =>
      main on_missing w
      = (World (ctx w') (stdout w' ++ ["Error: " +:+ msg])%list, 1%Z)
  | (w', inr _) =>
      main on_missing w
      = (World (ctx w') (stdout w' ++ ["Setup completed successfully."])%list,
         0%Z)
  end.
Proof.
  unfold main, run_main.
  by destruct (setup_gpu_and_denoiser on_missing w) as [w' [[msg] | []]].
Qed.

Lemma example_host_reaches_configurator :
  reaches_configurator (example_host "CYCLES" full_cycles_attrs example_devices).
Proof.
  split; [reflexivity|]. split.
  - exists (Device "RTX 4090" "OPTIX" false). split; [left | by left].
  - vm_compute. reflexivity.
Defined.


Lemma no_tiles_host_reaches : reaches_configurator no_tiles_host.
Proof.
  split; [reflexivity|]. split.
  - exists (Device "RTX 4090" "OPTIX" false). split; [left | by left].
  - vm_compute. reflexivity.
Defined.



Lemma setup_gpu_and_denoiser_tiles_witness :
  reaches_configurator (example_host "CYCLES" full_cycles_attrs example_devices) ∧
  match setup_gpu_and_denoiser DropWrite
          (example_host "CYCLES" full_cycles_attrs example_devices) with
  | (w', inr _) =>
      let a := scene_cycles_of
                 (example_host "CYCLES" full_cycles_attrs example_devices) in
      let a' := scene_cycles_of w' in
      if hasattr "use_auto_tile" a
      then a' !! "use_auto_tile" = Some (VBool false) ∧
           a' !! "tile_x" = written DropWrite (a !! "tile_x") (VInt 256) ∧
           a' !! "tile_y" = written DropWrite (a !! "tile_y") (VInt 256)
      else a' !! "use_auto_tile" = None ∧
           a' !! "tile_x" = a !! "tile_x" ∧
           a' !! "tile_y" = a !! "tile_y"
  | (_, inl _) =>
      raise_cause DropWrite
        (example_host "CYCLES" full_cycles_attrs example_devices)
  end.
Proof.
  split; [exact example_host_reaches_configurator|].
  exact (setup_gpu_and_denoiser_tiles DropWrite _
           example_host_reaches_configurator).
Defined.

(** C10 as stated fails on a host that has [use_auto_tile] but neither
    [tile_x] nor [tile_y] and drops the assignment of an attribute it
    lacks: the run is on the full success path and returns, and [tile_x]
    and [tile_y] are still undefined, not 256. *)
Lemma setup_gpu_and_denoiser_drops_tiles :
  reaches_configurator no_tiles_host ∧
  hasattr "use_auto_tile" (scene_cycles_of no_tiles_host) = true ∧
  ∃ w', setup_gpu_and_denoiser DropWrite no_tiles_host = (w', inr tt) ∧
        scene_cycles_of w' !! "use_auto_tile" = Some (VBool false) ∧
        scene_cycles_of w' !! "tile_x" = None ∧
        scene_cycles_of w' !! "tile_y" = None.
Proof.
  split; [exact no_tiles_host_reaches|]. split; [reflexivity|].
  eexists. split; [vm_compute; reflexivity|]. by vm_compute.
Qed.

(** Both outcomes of the [__main__] block occur, with the text Python
    prints for the exception. *)
Example main_succeeds :
  let r := main RaiseAttributeError
             (example_host "CYCLES" full_cycles_attrs example_devices) in
  snd r = 0%Z ∧ last (stdout (fst r)) = Some "Setup completed successfully.".
Proof. vm_compute. by split. Qed.

Example main_fails :
  let r := main RaiseAttributeError no_quality_host in
  snd r = 1%Z ∧
  last (stdout (fst r))
  = Some "Error: 'CyclesRenderSettings' object has no attribute 'denoising_quality'".
Proof. vm_compute. by split. Qed.

Example main_fails_no_node_tree :
  let r := main DropWrite no_node_tree_host in
  snd r = 1%Z ∧
  stdout (fst r)
  = ["Configuring GPU rendering..."; "GPU setup complete: CUDA";
     "Error: 'Scene' object has no attribute 'node_tree'"].
Proof. vm_compute. by split. Qed.

(** The run of [example_host] ends with the tile attributes forced. *)
Example example_host_run :
  let w' := fst (setup_gpu_and_denoiser RaiseAttributeError
                   (example_host "CYCLES" full_cycles_attrs example_devices)) in
  scene_cycles_of w' !! "tile_x" = Some (VInt 256) ∧
  scene_cycles_of w' !! "denoiser" = Some (VStr "OPENIMAGEDENOISE") ∧
  stdout w' =
    ["Configuring GPU rendering..."; "GPU setup complete: OPTIX";
     "Denoising enabled: forcing OIDN configuration...";
     "=== Final Configuration ==="; "Compute Type: OPTIX";
     "Render Device: GPU"; "Denoiser: OPENIMAGEDENOISE (GPU)";
     "Enabled Devices:"; "  - RTX 4090 (OPTIX)"].
Proof. vm_compute. by repeat split. Qed.

(** * Further properties of the script *)

(** ** Selector *)

(** X2: the value the selector returns tells which kinds the collection
    holds: ['OPTIX'] exactly when there is an OPTIX device, ['CUDA'] exactly
    when there is none but there is a CUDA device, [None] exactly when there
    is neither. *)
Theorem setup_gpu_rendering_result (w : world) :
  let has kind := ∃ d, d ∈ devices (prefs_of w) ∧ d_type d = kind in
  ∃ w' gpu,
    setup_gpu_rendering w = (w', inr gpu) ∧
    (gpu = Some "OPTIX" ↔ has "OPTIX") ∧
    (gpu = Some "CUDA" ↔ ¬ has "OPTIX" ∧ has "CUDA") ∧
    (gpu = None ↔ ¬ has "OPTIX" ∧ ¬ has "CUDA").
Proof.
  cbv zeta. rewrite setup_gpu_rendering_run. eexists _, _.
  split; [reflexivity|].
  rewrite <- !any_device_of_spec.
  destruct (selected_kind_cases (devices (prefs_of w)))
    as [(-> & ->) | [(-> & -> & ->) | (-> & -> & ->)]];
    repeat split; try done; try (intros [? ?]; done).
Qed.

(** X3: the selector writes nothing but the engine, the cycles device, the
    compute backend and the [use] flags: every attribute map, the node
    tree, the view layer, the output, and the names, types and order of
    the devices are as before. *)
Theorem setup_gpu_rendering_frame (w : world) :
  ∃ w' gpu,
    setup_gpu_rendering w = (w', inr gpu) ∧
    render_attrs (render (scene (ctx w')))
      = render_attrs (render (scene (ctx w))) ∧
    scene_cycles_of w' = scene_cycles_of w ∧
    use_nodes (scene (ctx w')) = use_nodes (scene (ctx w)) ∧
    node_tree (scene (ctx w')) = node_tree (scene (ctx w)) ∧
    view_layer (ctx w') = view_layer (ctx w) ∧
    system (preferences (ctx w')) = system (preferences (ctx w)) ∧
    stdout w' = stdout w ∧
    map d_name (devices (prefs_of w')) = map d_name (devices (prefs_of w)) ∧
    map d_type (devices (prefs_of w')) = map d_type (devices (prefs_of w)).
Proof.
  rewrite setup_gpu_rendering_run. eexists _, _.
  split; [reflexivity|]. repeat split.
  - unfold gpu_configured, gpu_ctx, prefs_of, select_devices; simpl.
    rewrite map_map. by apply map_ext.
  - unfold gpu_configured, gpu_ctx, prefs_of, select_devices; simpl.
    rewrite map_map. by apply map_ext.
Qed.

(** X4: after the selector, every enabled device is of the configured
    compute backend, and the selector returns [None] exactly when it left
    no device enabled. *)
Theorem setup_gpu_rendering_enabled (w : world) :
  ∃ w' gpu,
    setup_gpu_rendering w = (w', inr gpu) ∧
    (∀ d', d' ∈ devices (prefs_of w') → d_use d' = true →
           d_type d' = compute_device_type (prefs_of w')) ∧
    (gpu = None ↔ ∀ d', d' ∈ devices (prefs_of w') → d_use d' = false).
Proof.
  rewrite setup_gpu_rendering_run. eexists _, _.
  split; [reflexivity|].
  set (ds := devices (prefs_of w)).
  set (kind := default "CUDA" (selected_kind ds)).
  assert (Hdevs : devices (prefs_of (gpu_configured kind w))
                  = select_devices kind ds) by reflexivity.
  assert (Hbackend : compute_device_type (prefs_of (gpu_configured kind w))
                     = kind) by reflexivity.
  rewrite Hdevs, Hbackend. clear Hdevs Hbackend. split.
  - intros d' Hin Huse. unfold select_devices in Hin.
    apply list_elem_of_fmap in Hin as (d & -> & Hin). simpl in *.
    by apply String.eqb_eq.
  - assert (Hnone : any_device_of kind ds = false ↔
                    ∀ d', d' ∈ select_devices kind ds → d_use d' = false).
    { split.
      - intros Hany d' Hin. unfold select_devices in Hin.
        apply list_elem_of_fmap in Hin as (d & -> & Hin). simpl.
        apply String.eqb_neq. intros Hty.
        assert (any_device_of kind ds = true)
          by (apply any_device_of_spec; eauto). congruence.
      - intros Hall. destruct (any_device_of kind ds) eqn:Hany; [|done].
        apply any_device_of_spec in Hany as (d & Hin & Hty).
        specialize (Hall (set_d_use (String.eqb (d_type d) kind) d)).
        rewrite <- Hall.
        + simpl. symmetry. by apply String.eqb_eq.
        + unfold select_devices. apply list_elem_of_fmap. eauto. }
    rewrite <- Hnone. subst kind.
    destruct (selected_kind_cases ds)
      as [(-> & H1) | [(-> & H1 & H2) | (-> & H1 & H2)]]; simpl;
      split; congruence.
Qed.

(** X5: the selector is idempotent: run on the state it left, it returns
    the same kind and changes nothing. *)
Theorem setup_gpu_rendering_idempotent (w : world) :
  setup_gpu_rendering (fst (setup_gpu_rendering w)) = setup_gpu_rendering w.
Proof.
  rewrite (setup_gpu_rendering_run w). simpl fst.
  rewrite setup_gpu_rendering_run.
  set (ds := devices (prefs_of w)).
  set (kind := default "CUDA" (selected_kind ds)).
  assert (Hdevs : devices (prefs_of (gpu_configured kind w))
                  = select_devices kind ds) by reflexivity.
  rewrite Hdevs.
  assert (Hsel : selected_kind (select_devices kind ds) = selected_kind ds).
  { unfold selected_kind. by rewrite !any_device_of_select. }
  rewrite Hsel. fold kind. f_equal.
  unfold gpu_configured, gpu_ctx, prefs_of. simpl.
  by rewrite select_devices_idemp.
Qed.

(** X6: the selector does not change what the denoising detector reads:
    the detector answers the same before and after it. *)
Theorem check_denoising_enabled_after_gpu (w : world) :
  check_denoising_enabled (ctx (fst (setup_gpu_rendering w)))
  = check_denoising_enabled (ctx w).
Proof. by rewrite setup_gpu_rendering_run. Qed.

(** ** Denoiser configurator *)

Lemma set_if_present_lookup (name k : string) (v : value) (o : attrs) :
  set_if_present name v o !! k
  = (λ v0, if decide (k = name) then v else v0) <$> o !! k.
Proof.
  unfold set_if_present, hasattr.
  destruct (decide (k = name)) as [-> | Hne].
  - destruct (o !! name) eqn:E; [by rewrite lookup_insert_eq | by rewrite E].
  - destruct (o !! name); [rewrite lookup_insert_ne by done|];
      by destruct (o !! k).
Qed.

Lemma attrs_rewritten_one (name : string) (v : value) (o : attrs) :
  attrs_rewritten ∅ {[ name := v ]} o (set_if_present name v o).
Proof.
  intros k. rewrite lookup_empty, set_if_present_lookup.
  destruct (decide (k = name)) as [-> | Hne].
  - rewrite lookup_singleton_eq. by destruct (o !! name).
  - rewrite lookup_singleton_ne by done. by destruct (o !! k).
Qed.

Lemma attrs_rewritten_two (n1 n2 : string) (v1 v2 : value) (o : attrs) :
  n1 ≠ n2 →
  attrs_rewritten ∅ (list_to_map [(n1, v1); (n2, v2)]) o
    (set_if_present n2 v2 (set_if_present n1 v1 o)).
Proof.
  intros Hne k. rewrite lookup_empty, !set_if_present_lookup. simpl.
  destruct (decide (k = n1)) as [-> | H1].
  - rewrite lookup_insert_eq. destruct (decide (n1 = n2)); [done|].
    by destruct (o !! n1).
  - rewrite lookup_insert_ne by done.
    destruct (decide (k = n2)) as [-> | H2].
    + rewrite lookup_insert_eq. by destruct (o !! n2).
    + rewrite lookup_insert_ne, lookup_empty by done. by destruct (o !! k).
Qed.

(** The five unprobed assignments on a host that creates attributes. *)
Lemma oidn_scene_cycles_created (a : attrs) (k : string) :
  oidn_scene_cycles CreateAttribute a !! k
  = match (list_to_map oidn_scene_writes : gmap string value) !! k with
    | Some v => Some v
    | None => a !! k
    end.
Proof.
  unfold oidn_scene_cycles, oidn_scene_writes, write_attr. simpl.
  destruct (decide (k = "use_denoising")) as [-> | ?]; [by simplify_map_eq|].
  destruct (decide (k = "denoiser")) as [-> | ?]; [by simplify_map_eq|].
  destruct (decide (k = "denoising_store_passes")) as [-> | ?];
    [by simplify_map_eq|].
  destruct (decide (k = "denoising_prefilter")) as [-> | ?];
    [by simplify_map_eq|].
  destruct (decide (k = "denoising_quality")) as [-> | ?];
    [by simplify_map_eq|].
  by simplify_map_eq.
Qed.

(** The five unprobed assignments on a host that does not: the
    attributes [a] defines are overwritten. *)
Lemma oidn_cycles_attrs_kept (on_missing : missing_attr_write) (a : attrs)
  (k : string) :
  on_missing ≠ CreateAttribute →
  oidn_cycles_attrs on_missing a !! k
  = (λ v0, default v0
             ((list_to_map (oidn_scene_writes ++ gpu_flag_writes)
               : gmap string value) !! k)) <$> a !! k.
Proof.
  intros Hpol.
  assert (Heq : oidn_cycles_attrs on_missing a
                = oidn_cycles_attrs DropWrite a)
    by (by destruct on_missing).
  rewrite Heq. clear Heq Hpol.
  unfold oidn_cycles_attrs, oidn_scene_cycles, write_attr,
    oidn_scene_writes, gpu_flag_writes.
  rewrite !set_if_present_lookup. simpl.
  destruct (a !! k) as [v0|]; [|done]. simpl. f_equal.
  destruct (decide (k = "use_denoising")) as [-> | ?]; [by simplify_map_eq|].
  destruct (decide (k = "denoiser")) as [-> | ?]; [by simplify_map_eq|].
  destruct (decide (k = "denoising_store_passes")) as [-> | ?];
    [by simplify_map_eq|].
  destruct (decide (k = "denoising_prefilter")) as [-> | ?];
    [by simplify_map_eq|].
  destruct (decide (k = "denoising_quality")) as [-> | ?];
    [by simplify_map_eq|].
  destruct (decide (k = "use_denoising_gpu")) as [-> | ?];
    [by simplify_map_eq|].
  destruct (decide (k = "denoising_use_gpu")) as [-> | ?];
    [by simplify_map_eq|].
  by simplify_map_eq.
Qed.

Lemma oidn_cycles_attrs_rewritten (on_missing : missing_attr_write)
  (a : attrs) :
  attrs_rewritten (forced_on on_missing oidn_scene_writes)
    (probed_on on_missing oidn_scene_writes gpu_flag_writes)
    a (oidn_cycles_attrs on_missing a).
Proof.
  intros k.
  destruct (decide (on_missing = CreateAttribute)) as [-> | Hpol].
  - unfold forced_on, probed_on, oidn_cycles_attrs.
    pose proof (attrs_rewritten_two "use_denoising_gpu" "denoising_use_gpu"
                  (VBool true) (VBool true)
                  (oidn_scene_cycles CreateAttribute a) ltac:(done) k) as Hk.
    rewrite lookup_empty in Hk. rewrite Hk. clear Hk.
    rewrite oidn_scene_cycles_created.
    destruct (list_to_map oidn_scene_writes !! k) as [v|] eqn:Hforced; [|done].
    simpl.
    assert (Hnot : (list_to_map gpu_flag_writes : gmap string value) !! k
                   = None).
    { unfold oidn_scene_writes, gpu_flag_writes in *. simpl in *.
      destruct (decide (k = "use_denoising_gpu")) as [-> | ?];
        [by simplify_map_eq|].
      destruct (decide (k = "denoising_use_gpu")) as [-> | ?];
        [by simplify_map_eq|].
      by simplify_map_eq. }
    unfold gpu_flag_writes in Hnot. simpl in Hnot. by rewrite Hnot.
  - rewrite oidn_cycles_attrs_kept by done.
    assert (Hf : forced_on on_missing oidn_scene_writes = ∅)
      by (by destruct on_missing).
    assert (Hp : probed_on on_missing oidn_scene_writes gpu_flag_writes
                 = list_to_map (oidn_scene_writes ++ gpu_flag_writes))
      by (by destruct on_missing).
    by rewrite Hf, Hp, lookup_empty.
Qed.

Lemma attrs_rewritten_idemp (forced probed : gmap string value)
  (a b c : attrs) :
  attrs_rewritten forced probed a b → attrs_rewritten forced probed b c →
  c = b.
Proof.
  intros Hab Hbc. apply map_eq. intros k. rewrite Hbc, Hab.
  destruct (forced !! k); [done|].
  destruct (a !! k); [|done]. simpl. by destruct (probed !! k).
Qed.

Lemma check_denoising_enabled_indicated (c : context) :
  denoising_indicated c → check_denoising_enabled c = inr true.
Proof.
  intros Hin.
  by destruct (check_denoising_enabled_cases c)
    as [(_ & ->) | [(Hn & _) | (Hn & _)]].
Qed.

Lemma check_denoising_enabled_true (c : context) :
  check_denoising_enabled c = inr true → denoising_indicated c.
Proof.
  intros Hrun.
  destruct (check_denoising_enabled_cases c)
    as [(Hin & _) | [(_ & _ & Heq) | (_ & _ & Heq)]]; [done|..];
    rewrite Heq in Hrun; discriminate.
Qed.

Lemma undetected_host_run :
  setup_oidn_denoising DropWrite undetected_host
  = (on_ctx (oidn_configured DropWrite) undetected_host, inr tt).
Proof. vm_compute. reflexivity. Defined.

(** X7: whenever the configurator returns on a host whose [scene.cycles]
    defines [use_denoising], or that creates the attribute on assignment,
    the detector reports denoising on the state it left, whatever it
    reported before. *)
Theorem setup_oidn_denoising_detected (on_missing : missing_attr_write)
  (w w' : world) :
  setup_oidn_denoising on_missing w = (w', inr tt) →
  on_missing = CreateAttribute ∨
    is_Some (scene_cycles_of w !! "use_denoising") →
  check_denoising_enabled (ctx w') = inr true.
Proof.
  intros Hrun Hdef. apply setup_oidn_denoising_returns in Hrun as (_ & _ & ->).
  apply check_denoising_enabled_indicated. left.
  unfold flag_on.
  change (ctx (on_ctx (oidn_configured on_missing) w))
    with (oidn_configured on_missing (ctx w)).
  rewrite oidn_configured_cycles.
  pose proof (oidn_cycles_attrs_written on_missing (scene_cycles_of w)) as HF.
  unfold oidn_scene_writes in HF. apply Forall_cons in HF as [HF _].
  simpl in HF. unfold scene_cycles_of in HF. rewrite HF.
  exists (VBool true). split; [|done].
  destruct Hdef as [-> | [v Hv]].
  - by destruct (cycles_attrs (cycles (scene (ctx w))) !! "use_denoising").
  - unfold scene_cycles_of in Hv. by rewrite Hv.
Qed.

Lemma setup_oidn_denoising_detected_witness :
  check_denoising_enabled (ctx undetected_host) = inr false ∧
  setup_oidn_denoising DropWrite undetected_host
  = (on_ctx (oidn_configured DropWrite) undetected_host, inr tt) ∧
  check_denoising_enabled
    (ctx (on_ctx (oidn_configured DropWrite) undetected_host)) = inr true.
Proof.
  split; [reflexivity|]. split; [exact undetected_host_run|].
  apply (setup_oidn_denoising_detected DropWrite undetected_host
           (on_ctx (oidn_configured DropWrite) undetected_host)
           undetected_host_run).
  right. vm_compute. by eexists.
Defined.

Lemma cycles_host_configured_run :
  setup_oidn_denoising RaiseAttributeError cycles_host
  = (cycles_host_configured, inr tt).
Proof. vm_compute. reflexivity. Defined.

(** X8: when the configurator returns, the view layer, [scene.render] and
    the system preferences have each probed attribute they define forced
    and nothing else added or changed; the engine, the cycles device, the
    view layer's cycles settings, the device preferences and the output
    are untouched. *)
Theorem setup_oidn_denoising_probed (on_missing : missing_attr_write)
  (w w' : world) :
  setup_oidn_denoising on_missing w = (w', inr tt) →
  attrs_rewritten ∅ (list_to_map pass_writes)
    (vl_attrs (view_layer (ctx w))) (vl_attrs (view_layer (ctx w'))) ∧
  attrs_rewritten ∅ {[ "use_compositor_gpu" := VBool true ]}
    (render_attrs (render (scene (ctx w))))
    (render_attrs (render (scene (ctx w')))) ∧
  attrs_rewritten ∅ {[ "compositor_device" := VStr "GPU" ]}
    (system (preferences (ctx w))) (system (preferences (ctx w'))) ∧
  vl_cycles (view_layer (ctx w')) = vl_cycles (view_layer (ctx w)) ∧
  engine (render (scene (ctx w'))) = engine (render (scene (ctx w))) ∧
  device (cycles (scene (ctx w'))) = device (cycles (scene (ctx w))) ∧
  prefs_of w' = prefs_of w ∧
  stdout w' = stdout w.
Proof.
  intros Hrun. apply setup_oidn_denoising_returns in Hrun as (_ & _ & ->).
  unfold prefs_of.
  change (ctx (on_ctx (oidn_configured on_missing) w))
    with (oidn_configured on_missing (ctx w)).
  destruct (oidn_configured_parts on_missing (ctx w))
    as (He & Hd & _ & _ & Hvc & Hp & Hr & Hv & Hs & _).
  rewrite He, Hd, Hvc, Hp, Hr, Hv, Hs.
  repeat split.
  - by apply attrs_rewritten_two.
  - apply attrs_rewritten_one.
  - apply attrs_rewritten_one.
Qed.

Lemma setup_oidn_denoising_probed_witness :
  setup_oidn_denoising RaiseAttributeError cycles_host
  = (cycles_host_configured, inr tt) ∧
  vl_attrs (view_layer (ctx cycles_host_configured)) !! "use_pass_normal"
  = Some (VBool true) ∧
  vl_attrs (view_layer (ctx cycles_host_configured)) !! "use_pass_diffuse_color"
  = None.
Proof.
  split; [exact cycles_host_configured_run|].
  destruct (setup_oidn_denoising_probed _ _ _ cycles_host_configured_run)
    as (Hvl & _).
  split.
  - rewrite (Hvl "use_pass_normal"). reflexivity.
  - rewrite (Hvl "use_pass_diffuse_color"). reflexivity.
Defined.

Lemma no_store_passes_host_configured :
  setup_oidn_denoising DropWrite no_store_passes_host
  = (on_ctx (oidn_configured DropWrite) no_store_passes_host, inr tt).
Proof. vm_compute. reflexivity. Defined.

(** X9: when the configurator returns, every attribute of [scene.cycles]
    other than the five scene-level settings and the two GPU flags is as
    before, and no other attribute is added.  Each of the two GPU flags
    is set to true where the host defined it.  Each of the five settings
    is forced on a host that creates attributes; on the others it is
    forced where the host defined it and stays undefined where it did
    not. *)
Theorem setup_oidn_denoising_scene_cycles (on_missing : missing_attr_write)
  (w w' : world) :
  setup_oidn_denoising on_missing w = (w', inr tt) →
  attrs_rewritten (forced_on on_missing oidn_scene_writes)
    (probed_on on_missing oidn_scene_writes gpu_flag_writes)
    (scene_cycles_of w) (scene_cycles_of w').
Proof.
  intros Hrun. apply setup_oidn_denoising_returns in Hrun as (_ & _ & ->).
  unfold scene_cycles_of.
  change (ctx (on_ctx (oidn_configured on_missing) w))
    with (oidn_configured on_missing (ctx w)).
  rewrite oidn_configured_cycles. apply oidn_cycles_attrs_rewritten.
Qed.

Lemma setup_oidn_denoising_scene_cycles_witness :
  setup_oidn_denoising DropWrite no_store_passes_host
  = (on_ctx (oidn_configured DropWrite) no_store_passes_host, inr tt) ∧
  let a' := scene_cycles_of
              (on_ctx (oidn_configured DropWrite) no_store_passes_host) in
  a' !! "denoiser" = Some (VStr "OPENIMAGEDENOISE") ∧
  a' !! "denoising_store_passes" = None ∧
  a' !! "denoising_use_gpu" = Some (VBool true) ∧
  a' !! "use_denoising_gpu" = None ∧
  a' !! "tile_x" = Some (VInt 2048).
Proof.
  split; [exact no_store_passes_host_configured|].
  pose proof (setup_oidn_denoising_scene_cycles _ _ _
                no_store_passes_host_configured) as H.
  cbv zeta. split; [|split; [|split; [|split]]].
  - rewrite (H "denoiser"). reflexivity.
  - rewrite (H "denoising_store_passes"). reflexivity.
  - rewrite (H "denoising_use_gpu"). reflexivity.
  - rewrite (H "use_denoising_gpu"). reflexivity.
  - rewrite (H "tile_x"). reflexivity.
Defined.

Lemma oidn_node_rewritten (n : node) : node_rewritten true n (oidn_node n).
Proof.
  unfold node_rewritten, oidn_node. simpl.
  destruct (String.eqb (n_type n) "DENOISE"); [|done].
  split; [done|]. by apply attrs_rewritten_two.
Qed.

Lemma node_rewritten_off (n : node) : node_rewritten false n n.
Proof. by split. Qed.

(** X10: when the configurator returns, the compositor tree has the same
    nodes in the same order with the same types.  With [use_nodes] on,
    each DENOISE node has [use_gpu] and [use_hdr] set to true where it
    defines them and nothing else changed; every other node, and every
    node when [use_nodes] is off, keeps its attributes. *)
Theorem setup_oidn_denoising_nodes (on_missing : missing_attr_write)
  (w w' : world) :
  setup_oidn_denoising on_missing w = (w', inr tt) →
  use_nodes (scene (ctx w')) = use_nodes (scene (ctx w)) ∧
  option_Forall2 (Forall2 (node_rewritten (use_nodes (scene (ctx w)))))
    (node_tree (scene (ctx w))) (node_tree (scene (ctx w'))).
Proof.
  intros Hrun. apply setup_oidn_denoising_returns in Hrun as (_ & _ & ->).
  change (ctx (on_ctx (oidn_configured on_missing) w))
    with (oidn_configured on_missing (ctx w)).
  destruct (oidn_configured_parts on_missing (ctx w))
    as (_ & _ & Hun & _ & _ & _ & _ & _ & _ & Hnt & _).
  rewrite Hun, Hnt. split; [done|].
  destruct (use_nodes (scene (ctx w))), (node_tree (scene (ctx w))) as [ns|];
    simpl; constructor.
  - clear Hun Hnt. induction ns as [|n ns IH]; simpl; [by constructor|].
    constructor; [apply oidn_node_rewritten | exact IH].
  - clear Hun Hnt. induction ns as [|n ns IH]; [by constructor|].
    constructor; [apply node_rewritten_off | exact IH].
Qed.

Lemma setup_oidn_denoising_nodes_witness :
  setup_oidn_denoising RaiseAttributeError cycles_host
  = (cycles_host_configured, inr tt) ∧
  use_nodes (scene (ctx cycles_host_configured)) = true ∧
  option_Forall2 (Forall2 (node_rewritten true))
    (Some [Node "R_LAYERS" ∅; Node "DENOISE" {[ "use_hdr" := VBool false ]}])
    (node_tree (scene (ctx cycles_host_configured))).
Proof.
  split; [exact cycles_host_configured_run|].
  exact (setup_oidn_denoising_nodes _ _ _ cycles_host_configured_run).
Defined.

Ltac raise_at E :=
  erewrite bind_raise by
    (apply scene_cycles_set_raises; rewrite ?scene_cycles_of_upd;
     rewrite ?lookup_insert_ne by done; exact E);
  reflexivity.

(** X11: on a host that refuses new attributes, the configurator raises at
    the first of its five unprobed assignments whose attribute is missing:
    the error names that attribute, the assignments before it have been
    carried out on [scene.cycles], and nothing else has changed. *)
Theorem setup_oidn_denoising_first_missing (w : world)
  (done_ todo : list (string * value)) (name : string) (v : value) :
  oidn_scene_writes = (done_ ++ (name, v) :: todo)%list →
  Forall (λ p, is_Some (scene_cycles_of w !! p.1)) done_ →
  scene_cycles_of w !! name = None →
  setup_oidn_denoising RaiseAttributeError w
  = (on_ctx (upd_cycles_attrs (write_all done_)) w,
     inl (no_attribute "CyclesRenderSettings" name)).
Proof.
  intros Heq Hdone Hname. unfold oidn_scene_writes in Heq.
  unfold setup_oidn_denoising.
  destruct done_ as [|p1 done_]; simpl in Heq.
  { injection Heq as <- <- <-.
    erewrite bind_raise by (apply scene_cycles_set_raises; exact Hname).
    by destruct w as [[[r [d a] un hnt nt] vl p] out]. }
  injection Heq as <- Heq. apply Forall_cons in Hdone as [[v1 H1] Hdone].
  simpl in H1. step_present H1.
  destruct done_ as [|p2 done_]; simpl in Heq.
  { injection Heq as <- <- <-. raise_at Hname. }
  injection Heq as <- Heq. apply Forall_cons in Hdone as [[v2 H2] Hdone].
  simpl in H2. step_present H2.
  destruct done_ as [|p3 done_]; simpl in Heq.
  { injection Heq as <- <- <-. raise_at Hname. }
  injection Heq as <- Heq. apply Forall_cons in Hdone as [[v3 H3] Hdone].
  simpl in H3. step_present H3.
  destruct done_ as [|p4 done_]; simpl in Heq.
  { injection Heq as <- <- <-. raise_at Hname. }
  injection Heq as <- Heq. apply Forall_cons in Hdone as [[v4 H4] Hdone].
  simpl in H4. step_present H4.
  destruct done_ as [|p5 done_]; simpl in Heq.
  { injection Heq as <- <- <-. raise_at Hname. }
  injection Heq as _ Heq. by destruct done_.
Qed.

Lemma setup_oidn_denoising_first_missing_witness :
  setup_oidn_denoising RaiseAttributeError no_quality_host
  = (on_ctx (upd_cycles_attrs (write_all
       [("use_denoising", VBool true);
        ("denoiser", VStr "OPENIMAGEDENOISE");
        ("denoising_store_passes", VBool true);
        ("denoising_prefilter", VStr "ACCURATE")])) no_quality_host,
     inl (no_attribute "CyclesRenderSettings" "denoising_quality")).
Proof.
  apply (setup_oidn_denoising_first_missing no_quality_host
           [("use_denoising", VBool true);
            ("denoiser", VStr "OPENIMAGEDENOISE");
            ("denoising_store_passes", VBool true);
            ("denoising_prefilter", VStr "ACCURATE")]
           [] "denoising_quality" (VStr "HIGH")).
  - reflexivity.
  - repeat constructor; vm_compute; by eexists.
  - vm_compute. reflexivity.
Defined.

Lemma oidn_node_idemp (n : node) : oidn_node (oidn_node n) = oidn_node n.
Proof.
  pose proof (oidn_node_rewritten n) as [Hty H1].
  pose proof (oidn_node_rewritten (oidn_node n)) as [_ H2].
  rewrite Hty in H2. simpl in H1, H2.
  destruct (oidn_node n) as [ty' a'] eqn:En, (oidn_node (Node ty' a')) as [ty'' a''] eqn:En'.
  assert (ty'' = ty') as ->.
  { pose proof (oidn_node_rewritten (Node ty' a')) as [Hty' _].
    rewrite En' in Hty'. exact Hty'. }
  simpl in *. f_equal.
  destruct (String.eqb (n_type n) "DENOISE").
  - by eapply attrs_rewritten_idemp.
  - done.
Qed.

Lemma oidn_configured_idemp (on_missing : missing_attr_write) (c : context) :
  oidn_configured on_missing (oidn_configured on_missing c)
  = oidn_configured on_missing c.
Proof.
  pose proof (oidn_configured_parts on_missing c) as H1.
  pose proof (oidn_configured_parts on_missing (oidn_configured on_missing c))
    as H2.
  cbv zeta in *.
  destruct H1
    as (He1 & Hd1 & Hun1 & Hh1 & Hvc1 & Hp1 & Hr1 & Hv1 & Hs1 & Hnt1 & Hc1).
  destruct H2
    as (He2 & Hd2 & Hun2 & Hh2 & Hvc2 & Hp2 & Hr2 & Hv2 & Hs2 & Hnt2 & Hc2).
  rewrite Hun1 in Hnt2. rewrite Hnt1 in Hnt2.
  rewrite Hr1 in Hr2. rewrite Hv1 in Hv2. rewrite Hs1 in Hs2.
  rewrite Hc1 in Hc2.
  set (c1 := oidn_configured on_missing c) in *.
  set (c2 := oidn_configured on_missing c1) in *.
  assert (Hr : render_attrs (render (scene c2))
             = render_attrs (render (scene c1))).
  { rewrite Hr2, Hr1.
    eapply attrs_rewritten_idemp; apply attrs_rewritten_one. }
  assert (Hv : vl_attrs (view_layer c2) = vl_attrs (view_layer c1)).
  { rewrite Hv2, Hv1.
    eapply attrs_rewritten_idemp; by apply attrs_rewritten_two. }
  assert (Hs : system (preferences c2) = system (preferences c1)).
  { rewrite Hs2, Hs1.
    eapply attrs_rewritten_idemp; apply attrs_rewritten_one. }
  assert (Hcy : cycles_attrs (cycles (scene c2))
              = cycles_attrs (cycles (scene c1))).
  { rewrite Hc2, Hc1.
    eapply attrs_rewritten_idemp; apply oidn_cycles_attrs_rewritten. }
  assert (Hnt : node_tree (scene c2) = node_tree (scene c1)).
  { rewrite Hnt2, Hnt1.
    destruct (use_nodes (scene c)); [|done].
    destruct (node_tree (scene c)) as [ns|]; [|done]. simpl. f_equal.
    rewrite map_map. apply map_ext. intros n. apply oidn_node_idemp. }
  clear Hr2 Hv2 Hs2 Hc2 Hnt2 Hr1 Hv1 Hs1 Hc1 Hnt1.
  clear He1 Hd1 Hun1 Hvc1 Hp1 Hh1.
  clearbody c2 c1.
  destruct c2 as [[[e2 ra2] [d2 a2] un2 hnt2 nt2] [va2 vc2] [sy2 ap2]].
  destruct c1 as [[[e1 ra1] [d1 a1] un1 hnt1 nt1] [va1 vc1] [sy1 ap1]].
  simpl in *. by subst.
Qed.

(** X12: the configurator is idempotent: once it has returned, running it
    again returns normally and changes nothing. *)
Theorem setup_oidn_denoising_idempotent (on_missing : missing_attr_write)
  (w w' : world) :
  setup_oidn_denoising on_missing w = (w', inr tt) →
  setup_oidn_denoising on_missing w' = (w', inr tt).
Proof.
  intros Hrun. apply setup_oidn_denoising_returns in Hrun as (Hw & Hr & ->).
  destruct (oidn_configured_parts on_missing (ctx w))
    as (_ & _ & Hun & Hh & _).
  rewrite setup_oidn_denoising_ok.
  - unfold on_ctx, set_ctx. simpl. by rewrite oidn_configured_idemp.
  - unfold scene_cycles_of.
    change (ctx (on_ctx (oidn_configured on_missing) w))
      with (oidn_configured on_missing (ctx w)).
    rewrite oidn_configured_cycles.
    by apply assignable_oidn_cycles_attrs.
  - change (ctx (on_ctx (oidn_configured on_missing) w))
      with (oidn_configured on_missing (ctx w)).
    unfold nodes_readable in *. by rewrite Hun, Hh.
Qed.

Lemma setup_oidn_denoising_idempotent_witness :
  setup_oidn_denoising RaiseAttributeError cycles_host
  = (cycles_host_configured, inr tt) ∧
  setup_oidn_denoising RaiseAttributeError cycles_host_configured
  = (cycles_host_configured, inr tt).
Proof.
  split; [exact cycles_host_configured_run|].
  exact (setup_oidn_denoising_idempotent _ _ _ cycles_host_configured_run).
Defined.

(** ** Orchestrator and entry point *)

(** X13: with the engine at CYCLES and no OPTIX or CUDA device, the
    orchestrator returns normally after its abort line, yet it has already
    switched the scene to the GPU, set the backend to CUDA and disabled
    every device; the denoiser settings and all other attributes are
    untouched. *)
Theorem setup_gpu_and_denoiser_no_gpu_abort (on_missing : missing_attr_write)
  (w : world) :
  engine (render (scene (ctx w))) = "CYCLES" →
  (∀ d, d ∈ devices (prefs_of w) → d_type d ≠ "OPTIX" ∧ d_type d ≠ "CUDA") →
  ∃ w',
    setup_gpu_and_denoiser on_missing w = (w', inr tt) ∧
    stdout w' = (stdout w ++ ["Configuring GPU rendering...";
                              "No GPU devices found, aborting."])%list ∧
    device (cycles (scene (ctx w'))) = "GPU" ∧
    compute_device_type (prefs_of w') = "CUDA" ∧
    (∀ d', d' ∈ devices (prefs_of w') → d_use d' = false) ∧
    scene_cycles_of w' = scene_cycles_of w ∧
    render_attrs (render (scene (ctx w')))
      = render_attrs (render (scene (ctx w))) ∧
    node_tree (scene (ctx w')) = node_tree (scene (ctx w)) ∧
    view_layer (ctx w') = view_layer (ctx w) ∧
    system (preferences (ctx w')) = system (preferences (ctx w)).
Proof.
  intros Heng Hno.
  rewrite (setup_gpu_and_denoiser_no_gpu _ _ Heng)
    by (by apply selected_kind_none).
  eexists. split; [reflexivity|]. repeat split.
  intros d' Hin. unfold prefs_of, gpu_ctx, select_devices in Hin. simpl in Hin.
  apply list_elem_of_fmap in Hin as (d & -> & Hin). simpl.
  apply String.eqb_neq. by apply Hno.
Qed.

Lemma setup_gpu_and_denoiser_no_gpu_abort_witness :
  (engine (render (scene (ctx
     (example_host "CYCLES" full_cycles_attrs cpu_only_devices)))) = "CYCLES" ∧
   ∀ d, d ∈ cpu_only_devices → d_type d ≠ "OPTIX" ∧ d_type d ≠ "CUDA") ∧
  ∃ w',
    setup_gpu_and_denoiser RaiseAttributeError
      (example_host "CYCLES" full_cycles_attrs cpu_only_devices) = (w', inr tt) ∧
    stdout w' = ["Configuring GPU rendering...";
                 "No GPU devices found, aborting."] ∧
    device (cycles (scene (ctx w'))) = "GPU" ∧
    compute_device_type (prefs_of w') = "CUDA" ∧
    (∀ d', d' ∈ devices (prefs_of w') → d_use d' = false) ∧
    scene_cycles_of w' = full_cycles_attrs ∧
    render_attrs (render (scene (ctx w')))
      = {[ "use_compositor_gpu" := VBool false ]} ∧
    node_tree (scene (ctx w'))
      = Some [Node "R_LAYERS" ∅;
              Node "DENOISE" {[ "use_hdr" := VBool false ]}] ∧
    view_layer (ctx w')
      = ViewLayer {[ "use_pass_normal" := VBool false ]} ∅ ∧
    system (preferences (ctx w')) = ∅.
Proof.
  assert (Hno : ∀ d, d ∈ cpu_only_devices →
                     d_type d ≠ "OPTIX" ∧ d_type d ≠ "CUDA").
  { intros d Hin. unfold cpu_only_devices in Hin.
    repeat (apply elem_of_cons in Hin as [-> | Hin]; [simpl; split; congruence|]).
    by apply elem_of_nil in Hin. }
  split; [by split|].
  exact (setup_gpu_and_denoiser_no_gpu_abort RaiseAttributeError
           (example_host "CYCLES" full_cycles_attrs cpu_only_devices)
           eq_refl Hno).
Defined.

(** X14: with the engine at CYCLES, a GPU device present and no denoising
    detected, the orchestrator applies the GPU selection, prints its skip
    line and returns normally without running the configurator: every
    attribute map, the node tree and the view layer are untouched. *)
Theorem setup_gpu_and_denoiser_no_denoising_skip
  (on_missing : missing_attr_write) (w : world) :
  engine (render (scene (ctx w))) = "CYCLES" →
  (∃ d, d ∈ devices (prefs_of w) ∧ (d_type d = "OPTIX" ∨ d_type d = "CUDA")) →
  check_denoising_enabled (ctx w) = inr false →
  ∃ w' kind,
    setup_gpu_and_denoiser on_missing w = (w', inr tt) ∧
    stdout w' = (stdout w ++
      ["Configuring GPU rendering...";
       "GPU setup complete: " +:+ kind;
       "Denoising not enabled in file; skipping denoiser setup."])%list ∧
    compute_device_type (prefs_of w') = kind ∧
    enabled_exactly kind (devices (prefs_of w)) (devices (prefs_of w')) ∧
    scene_cycles_of w' = scene_cycles_of w ∧
    render_attrs (render (scene (ctx w')))
      = render_attrs (render (scene (ctx w))) ∧
    node_tree (scene (ctx w')) = node_tree (scene (ctx w)) ∧
    view_layer (ctx w') = view_layer (ctx w) ∧
    system (preferences (ctx w')) = system (preferences (ctx w)).
Proof.
  intros Heng Hdev Hden.
  apply selected_kind_has_gpu in Hdev as [kind Hsel].
  rewrite (setup_gpu_and_denoiser_no_denoising _ _ _ Heng Hsel Hden).
  eexists _, kind. split; [reflexivity|]. repeat split.
  apply select_devices_enabled.
Qed.

Lemma setup_gpu_and_denoiser_no_denoising_skip_witness :
  (engine (render (scene (ctx plain_host))) = "CYCLES" ∧
   (∃ d, d ∈ devices (prefs_of plain_host)
         ∧ (d_type d = "OPTIX" ∨ d_type d = "CUDA")) ∧
   check_denoising_enabled (ctx plain_host) = inr false) ∧
  ∃ w' kind,
    setup_gpu_and_denoiser RaiseAttributeError plain_host = (w', inr tt) ∧
    stdout w' =
      ["Configuring GPU rendering...";
       "GPU setup complete: " +:+ kind;
       "Denoising not enabled in file; skipping denoiser setup."] ∧
    compute_device_type (prefs_of w') = kind ∧
    enabled_exactly kind cuda_only_devices (devices (prefs_of w')) ∧
    scene_cycles_of w' = {[ "use_denoising" := VBool false ]} ∧
    render_attrs (render (scene (ctx w'))) = ∅ ∧
    node_tree (scene (ctx w'))
      = Some [Node "R_LAYERS" ∅; Node "COMPOSITE" ∅] ∧
    view_layer (ctx w') = ViewLayer ∅ {[ "use_denoising" := VBool false ]} ∧
    system (preferences (ctx w')) = ∅.
Proof.
  assert (Hdev : ∃ d, d ∈ devices (prefs_of plain_host)
                      ∧ (d_type d = "OPTIX" ∨ d_type d = "CUDA")).
  { exists (Device "GTX 1080" "CUDA" false). split; [left | by right]. }
  assert (Hden : check_denoising_enabled (ctx plain_host) = inr false)
    by (vm_compute; reflexivity).
  split; [by repeat split|].
  exact (setup_gpu_and_denoiser_no_denoising_skip RaiseAttributeError
           plain_host eq_refl Hdev Hden).
Defined.

(** The outcome of the orchestrator on each path: it raises exactly when
    it is past the first two guards and the detector raises, or past all
    three on a host where the run does not complete. *)
Lemma setup_gpu_and_denoiser_outcome (on_missing : missing_attr_write)
  (w : world) :
  let raises :=
    engine (render (scene (ctx w))) = "CYCLES" ∧
    (∃ d, d ∈ devices (prefs_of w) ∧ (d_type d = "OPTIX" ∨ d_type d = "CUDA")) ∧
    ((¬ denoising_indicated (ctx w) ∧ ¬ nodes_readable (scene (ctx w))) ∨
     (denoising_indicated (ctx w) ∧ ¬ completes on_missing w)) in
  (raises ∧
   ∃ c' lines e,
     setup_gpu_and_denoiser on_missing w
     = (World c' (stdout w ++ lines), inl e) ∧
     raise_explained w e) ∨
  (¬ raises ∧
   ∃ c' lines,
     setup_gpu_and_denoiser on_missing w
     = (World c' (stdout w ++ lines), inr tt)).
Proof.
  cbv zeta.
  destruct (decide (engine (render (scene (ctx w))) = "CYCLES")) as [He | He];
    cycle 1.
  { right. split; [by intros (? & _)|].
    rewrite setup_gpu_and_denoiser_skip by done. by eexists _, _. }
  destruct (selected_kind (devices (prefs_of w))) as [kind|] eqn:Hsel;
    cycle 1.
  { right. split.
    - intros (_ & Hdev & _). apply selected_kind_has_gpu in Hdev as [k Hk].
      congruence.
    - rewrite setup_gpu_and_denoiser_no_gpu by done. by eexists _, _. }
  assert (Hdev : ∃ d, d ∈ devices (prefs_of w)
                      ∧ (d_type d = "OPTIX" ∨ d_type d = "CUDA"))
    by (apply selected_kind_has_gpu; eauto).
  destruct (check_denoising_enabled_cases (ctx w))
    as [(Hin & Hden) | [(Hin & Hr & Hden) | (Hin & Hr & Hden)]].
  - destruct (decide (completes on_missing w)) as [Hc | Hc].
    + right. split.
      * intros (_ & _ & [[Hn _] | [_ Hn]]); done.
      * rewrite (setup_gpu_and_denoiser_full _ _ _ He Hsel Hden Hc).
        by eexists _, _.
    + left. split; [by repeat split; try right|].
      destruct (setup_gpu_and_denoiser_raises _ _ _ He Hsel Hden Hc)
        as (c' & lines & e & -> & _ & Hexp & _).
      by eexists _, _, _.
  - right. split.
    + intros (_ & _ & [[_ Hn] | [Hn _]]); done.
    + rewrite (setup_gpu_and_denoiser_no_denoising _ _ _ He Hsel Hden).
      by eexists _, _.
  - left. split; [by repeat split; try left|].
    rewrite (setup_gpu_and_denoiser_detector_raises _ _ _ _ He Hsel Hden).
    eexists _, _, _. split; [reflexivity|]. by right.
Qed.

(** X15: the exit status of the script is 0 or 1.  It is 1 exactly when
    the engine is CYCLES, an OPTIX or CUDA device exists, and either
    nothing indicates denoising while the scene has [use_nodes] on and
    does not define [node_tree], so that the detector raises, or
    denoising is indicated and the run does not complete: the host
    refuses an assignment to a missing attribute, or the scene has
    [use_nodes] on without [node_tree], or a dropped assignment leaves
    [denoiser] undefined for the summary.  Every skipped or aborted run
    exits 0. *)
Theorem main_exit_code (on_missing : missing_attr_write) (w : world) :
  (snd (main on_missing w) = 0%Z ∨ snd (main on_missing w) = 1%Z) ∧
  (snd (main on_missing w) = 1%Z ↔
   engine (render (scene (ctx w))) = "CYCLES" ∧
   (∃ d, d ∈ devices (prefs_of w) ∧ (d_type d = "OPTIX" ∨ d_type d = "CUDA")) ∧
   ((¬ denoising_indicated (ctx w) ∧ ¬ nodes_readable (scene (ctx w))) ∨
    (denoising_indicated (ctx w) ∧ ¬ completes on_missing w))).
Proof.
  unfold main, run_main.
  destruct (setup_gpu_and_denoiser_outcome on_missing w)
    as [(Hr & c' & lines & e & -> & _) | (Hn & c' & lines & ->)]; simpl.
  - split; [by right|]. by split.
  - split; [by left|]. split; [done|]. intros H. by destruct Hn.
Qed.

(** X16: when the script exits with status 1, the last line it printed
    is either ["Error: 'CyclesRenderSettings' object has no attribute
    '<name>'"] for an attribute [name] that [scene.cycles] lacks, one of
    the seven assigned without a probe of their own, or ["Error: 'Scene'
    object has no attribute 'node_tree'"] on a scene that has [use_nodes]
    on and does not define [node_tree]. *)
Theorem main_error_line (on_missing : missing_attr_write) (w : world) :
  snd (main on_missing w) = 1%Z →
  (∃ name,
     name ∈ (oidn_scene_fields ++ tile_fields)%list ∧
     scene_cycles_of w !! name = None ∧
     last (stdout (fst (main on_missing w)))
     = Some ("Error: 'CyclesRenderSettings' object has no attribute '"
             +:+ name +:+ "'")) ∨
  (¬ nodes_readable (scene (ctx w)) ∧
   last (stdout (fst (main on_missing w)))
   = Some "Error: 'Scene' object has no attribute 'node_tree'").
Proof.
  unfold main, run_main.
  destruct (setup_gpu_and_denoiser_outcome on_missing w)
    as [(Hr & c' & lines & e & -> & Hexp) | (Hn & c' & lines & ->)];
    simpl; [|done].
  intros _.
  destruct Hexp as [(name & Hin & Hnone & ->) | (Hnr & ->)].
  - left. exists name. split; [done|]. split; [done|].
    by rewrite last_snoc.
  - right. split; [done|]. by rewrite last_snoc.
Qed.

Lemma main_error_line_witness :
  snd (main DropWrite no_node_tree_host) = 1%Z ∧
  ((∃ name,
      name ∈ (oidn_scene_fields ++ tile_fields)%list ∧
      scene_cycles_of no_node_tree_host !! name = None ∧
      last (stdout (fst (main DropWrite no_node_tree_host)))
      = Some ("Error: 'CyclesRenderSettings' object has no attribute '"
              +:+ name +:+ "'")) ∨
   (¬ nodes_readable (scene (ctx no_node_tree_host)) ∧
    last (stdout (fst (main DropWrite no_node_tree_host)))
    = Some "Error: 'Scene' object has no attribute 'node_tree'")).
Proof.
  assert (H : snd (main DropWrite no_node_tree_host) = 1%Z)
    by (vm_compute; reflexivity).
  split; [exact H|].
  exact (main_error_line DropWrite no_node_tree_host H).
Defined.

Lemma completes_run_writable (w : world) :
  completes RaiseAttributeError w →
  run_writable RaiseAttributeError (scene_cycles_of w).
Proof.
  intros (Hw & _ & Ht & _). split.
  - right. by apply Hw.
  - intros Hauto. right. by apply Ht.
Qed.

Lemma run_writable_completes (on_missing : missing_attr_write) (w : world) :
  run_writable on_missing (scene_cycles_of w) →
  nodes_readable (scene (ctx w)) →
  completes on_missing w.
Proof.
  intros [Hw Ht] Hr. split; [by apply writable_assignable|].
  split; [done|]. split.
  - intros Hauto. by apply writable_assignable, Ht.
  - intros ->. destruct Hw as [Hw | Hw]; [discriminate|].
    apply (proj1 (Forall_forall _ _) Hw). unfold oidn_scene_fields. in_list.
Qed.

(** X17: a failed run is not rolled back.  When the orchestrator raises on
    a host that refuses one of the unprobed assignments, the GPU selection
    is already in place (backend set, exactly the devices of the selected
    kind enabled) and its first three lines are printed. *)
Theorem setup_gpu_and_denoiser_raises_late (w : world) :
  reaches_configurator w →
  ¬ run_writable RaiseAttributeError (scene_cycles_of w) →
  ∃ w' e kind,
    setup_gpu_and_denoiser RaiseAttributeError w = (w', inl e) ∧
    compute_device_type (prefs_of w') = kind ∧
    enabled_exactly kind (devices (prefs_of w)) (devices (prefs_of w')) ∧
    stdout w' = (stdout w ++
      ["Configuring GPU rendering...";
       "GPU setup complete: " +:+ kind;
       "Denoising enabled: forcing OIDN configuration..."])%list.
Proof.
  intros Hreach Hw.
  apply reaches_configurator_iff in Hreach as (He & [kind Hsel] & Hden).
  assert (Hc : ¬ completes RaiseAttributeError w)
    by (intros Hc; by apply Hw, completes_run_writable).
  destruct (setup_gpu_and_denoiser_raises _ w kind He Hsel Hden Hc)
    as (c' & lines & e & Hrun & Hprefs & _ & Hlines).
  rewrite Hrun, Hlines, app_nil_r by done.
  eexists _, _, kind. split; [reflexivity|].
  unfold prefs_of at 1 3. simpl ctx. rewrite Hprefs. simpl.
  repeat split. apply select_devices_enabled.
Qed.

Lemma no_tiles_host_refuses :
  ¬ run_writable RaiseAttributeError (scene_cycles_of no_tiles_host).
Proof.
  intros [_ Htile].
  destruct Htile as [Hpol | HF]; [vm_compute; reflexivity | discriminate |].
  apply Forall_cons in HF as [[v Hv] _]. vm_compute in Hv. discriminate.
Defined.

Lemma setup_gpu_and_denoiser_raises_late_witness :
  (reaches_configurator no_tiles_host ∧
   ¬ run_writable RaiseAttributeError (scene_cycles_of no_tiles_host)) ∧
  ∃ w' e kind,
    setup_gpu_and_denoiser RaiseAttributeError no_tiles_host = (w', inl e) ∧
    compute_device_type (prefs_of w') = kind ∧
    enabled_exactly kind example_devices (devices (prefs_of w')) ∧
    stdout w' =
      ["Configuring GPU rendering...";
       "GPU setup complete: " +:+ kind;
       "Denoising enabled: forcing OIDN configuration..."].
Proof.
  split; [split; [exact no_tiles_host_reaches | exact no_tiles_host_refuses]|].
  exact (setup_gpu_and_denoiser_raises_late no_tiles_host
           no_tiles_host_reaches no_tiles_host_refuses).
Defined.

Lemma enabled_lines_select (kind : string) (ds : list compute_device) :
  enabled_lines (select_devices kind ds)
  = map (device_line kind) (filter (λ d, d_type d = kind) ds).
Proof.
  unfold enabled_lines, select_devices, device_line.
  induction ds as [|d ds IH]; [done|].
  rewrite filter_cons. simpl. rewrite IH.
  destruct (String.eqb (d_type d) kind) eqn:E.
  - apply String.eqb_eq in E. rewrite decide_True by done. simpl.
    by rewrite E.
  - apply String.eqb_neq in E. by rewrite decide_False by done.
Qed.

(** X18: a full run that can carry out its unprobed assignments, on a
    scene that defines [node_tree] where [use_nodes] is on, returns
    normally and prints, after the lines it had, the three progress lines,
    the summary with the selected kind as compute type, GPU as render
    device and OPENIMAGEDENOISE as denoiser, and then one line for each
    device of the selected kind, in the order of the collection. *)
Theorem setup_gpu_and_denoiser_summary (on_missing : missing_attr_write)
  (w : world) :
  reaches_configurator w →
  run_writable on_missing (scene_cycles_of w) →
  nodes_readable (scene (ctx w)) →
  ∃ w' kind,
    setup_gpu_and_denoiser on_missing w = (w', inr tt) ∧
    selected_kind (devices (prefs_of w)) = Some kind ∧
    stdout w' = (stdout w ++ success_lines kind ++
                 map (device_line kind)
                   (filter (λ d, d_type d = kind) (devices (prefs_of w))))%list.
Proof.
  intros Hreach Hw Hr.
  apply reaches_configurator_iff in Hreach as (He & [kind Hsel] & Hden).
  rewrite (setup_gpu_and_denoiser_full _ _ _ He Hsel Hden
             (run_writable_completes _ _ Hw Hr)).
  eexists _, kind. split; [reflexivity|]. split; [done|].
  simpl. by rewrite enabled_lines_select.
Qed.

Lemma cycles_host_writable :
  run_writable RaiseAttributeError (scene_cycles_of cycles_host).
Proof.
  split.
  - right. repeat constructor; vm_compute; by eexists.
  - intros _. right. repeat constructor; vm_compute; by eexists.
Defined.

Lemma cycles_host_nodes_readable : nodes_readable (scene (ctx cycles_host)).
Proof. intros _. reflexivity. Defined.

Lemma setup_gpu_and_denoiser_summary_witness :
  (reaches_configurator cycles_host ∧
   run_writable RaiseAttributeError (scene_cycles_of cycles_host) ∧
   nodes_readable (scene (ctx cycles_host))) ∧
  ∃ w' kind,
    setup_gpu_and_denoiser RaiseAttributeError cycles_host = (w', inr tt) ∧
    selected_kind example_devices = Some kind ∧
    stdout w' = (success_lines kind ++
                 map (device_line kind)
                   (filter (λ d, d_type d = kind) example_devices))%list.
Proof.
  split; [split; [exact example_host_reaches_configurator
                 | split; [exact cycles_host_writable
                          | exact cycles_host_nodes_readable]]|].
  exact (setup_gpu_and_denoiser_summary RaiseAttributeError cycles_host
           example_host_reaches_configurator cycles_host_writable
           cycles_host_nodes_readable).
Defined.

Lemma final_ctx_parts (on_missing : missing_attr_write) (kind : string)
  (c : context) :
  let c' := final_ctx on_missing kind c in
  engine (render (scene c')) = "CYCLES" ∧
  device (cycles (scene c')) = "GPU" ∧
  use_nodes (scene c') = use_nodes (scene c) ∧
  has_node_tree (scene c') = has_node_tree (scene c) ∧
  vl_cycles (view_layer c') = vl_cycles (view_layer c) ∧
  addon_cycles (preferences c')
    = CyclesPreferences kind
        (select_devices kind (devices (addon_cycles (preferences c)))) ∧
  render_attrs (render (scene c'))
    = set_if_present "use_compositor_gpu" (VBool true)
        (render_attrs (render (scene c))) ∧
  vl_attrs (view_layer c')
    = set_if_present "use_pass_diffuse_color" (VBool true)
        (set_if_present "use_pass_normal" (VBool true)
           (vl_attrs (view_layer c))) ∧
  system (preferences c')
    = set_if_present "compositor_device" (VStr "GPU")
        (system (preferences c)) ∧
  node_tree (scene c')
    = (if use_nodes (scene c)
       then map oidn_node <$> node_tree (scene c)
       else node_tree (scene c)) ∧
  cycles_attrs (cycles (scene c'))
    = tile_attrs on_missing
        (oidn_cycles_attrs on_missing (cycles_attrs (cycles (scene c)))).
Proof.
  cbv zeta.
  destruct (oidn_configured_parts on_missing (gpu_ctx kind c))
    as (He & Hd & Hun & Hh & Hvc & Hp & Hr & Hv & Hs & Hnt & _).
  pose proof (final_ctx_cycles on_missing kind c) as Hcy.
  unfold final_ctx in *.
  set (c1 := oidn_configured on_missing (gpu_ctx kind c)) in *.
  clearbody c1.
  destruct c1 as [[[e1 ra1] [d1 a1] un1 hnt1 nt1] [va1 vc1] [sy1 ap1]].
  simpl in *. subst. by repeat split.
Qed.

Lemma context_ext (c1 c2 : context) :
  engine (render (scene c1)) = engine (render (scene c2)) →
  device (cycles (scene c1)) = device (cycles (scene c2)) →
  use_nodes (scene c1) = use_nodes (scene c2) →
  has_node_tree (scene c1) = has_node_tree (scene c2) →
  vl_cycles (view_layer c1) = vl_cycles (view_layer c2) →
  addon_cycles (preferences c1) = addon_cycles (preferences c2) →
  render_attrs (render (scene c1)) = render_attrs (render (scene c2)) →
  vl_attrs (view_layer c1) = vl_attrs (view_layer c2) →
  system (preferences c1) = system (preferences c2) →
  node_tree (scene c1) = node_tree (scene c2) →
  cycles_attrs (cycles (scene c1)) = cycles_attrs (cycles (scene c2)) →
  c1 = c2.
Proof.
  destruct c1 as [[[e1 ra1] [d1 a1] un1 hnt1 nt1] [va1 vc1] [sy1 ap1]].
  destruct c2 as [[[e2 ra2] [d2 a2] un2 hnt2 nt2] [va2 vc2] [sy2 ap2]].
  simpl. by intros -> -> -> -> -> -> -> -> -> -> ->.
Qed.

Lemma written_idemp (on_missing : missing_attr_write) (x : option value)
  (v : value) :
  written on_missing (written on_missing x v) v = written on_missing x v.
Proof. by destruct on_missing, x. Qed.

Lemma written_is_Some (on_missing : missing_attr_write) (x : option value)
  (v : value) :
  is_Some x → written on_missing x v = Some v.
Proof. intros [v0 ->]. by destruct on_missing. Qed.

(** [scene.cycles] after the tile-size block, attribute by attribute. *)
Lemma tile_attrs_lookup (on_missing : missing_attr_write) (b : attrs)
  (k : string) :
  tile_attrs on_missing b !! k
  = if hasattr "use_auto_tile" b
    then if decide (k = "use_auto_tile") then Some (VBool false)
         else if decide (k = "tile_x" ∨ k = "tile_y")
              then written on_missing (b !! k) (VInt 256)
              else b !! k
    else b !! k.
Proof.
  unfold tile_attrs. destruct (hasattr "use_auto_tile" b) eqn:Hauto; [|done].
  apply hasattr_true in Hauto.
  destruct (decide (k = "use_auto_tile")) as [-> | H0].
  { rewrite !write_attr_lookup_ne by done.
    rewrite write_attr_lookup_eq. by apply written_is_Some. }
  destruct (decide (k = "tile_y")) as [-> | Hy].
  { rewrite write_attr_lookup_eq, !write_attr_lookup_ne by done.
    rewrite decide_True by (by right). done. }
  rewrite (write_attr_lookup_ne _ "tile_y") by done.
  destruct (decide (k = "tile_x")) as [-> | Hx].
  { rewrite write_attr_lookup_eq, !write_attr_lookup_ne by done.
    rewrite decide_True by (by left). done. }
  rewrite !write_attr_lookup_ne by done.
  rewrite decide_False by (by intros [? | ?]). done.
Qed.

Lemma tile_attrs_hasattr (on_missing : missing_attr_write) (b : attrs) :
  hasattr "use_auto_tile" (tile_attrs on_missing b)
  = hasattr "use_auto_tile" b.
Proof.
  unfold hasattr at 1. rewrite tile_attrs_lookup.
  destruct (hasattr "use_auto_tile" b) eqn:E; [done|].
  unfold hasattr in E. by destruct (b !! "use_auto_tile").
Qed.

Lemma tile_attrs_is_Some (on_missing : missing_attr_write) (b : attrs)
  (k : string) :
  is_Some (b !! k) → is_Some (tile_attrs on_missing b !! k).
Proof.
  intros H. unfold tile_attrs. destruct (hasattr "use_auto_tile" b); [|done].
  by repeat apply write_attr_is_Some.
Qed.

Lemma tile_attrs_idemp (on_missing : missing_attr_write) (b : attrs) :
  tile_attrs on_missing (tile_attrs on_missing b) = tile_attrs on_missing b.
Proof.
  apply map_eq. intros k.
  rewrite (tile_attrs_lookup _ (tile_attrs on_missing b)).
  rewrite tile_attrs_hasattr, !tile_attrs_lookup.
  destruct (hasattr "use_auto_tile" b); [|done].
  destruct (decide (k = "use_auto_tile")); [done|].
  destruct (decide (k = "tile_x" ∨ k = "tile_y")); [|done].
  apply written_idemp.
Qed.

Lemma oidn_cycles_attrs_tile_lookup (on_missing : missing_attr_write)
  (b : attrs) (k : string) :
  k = "use_auto_tile" ∨ k = "tile_x" ∨ k = "tile_y" →
  oidn_cycles_attrs on_missing b !! k = b !! k.
Proof.
  intros Hk. apply oidn_cycles_attrs_lookup_ne.
  - unfold oidn_scene_fields. destruct Hk as [-> | [-> | ->]]; not_in_list.
  - by destruct Hk as [-> | [-> | ->]].
  - by destruct Hk as [-> | [-> | ->]].
Qed.

Lemma oidn_tile_commute (on_missing : missing_attr_write) (b : attrs) :
  oidn_cycles_attrs on_missing (tile_attrs on_missing b)
  = tile_attrs on_missing (oidn_cycles_attrs on_missing b).
Proof.
  apply map_eq. intros k.
  rewrite tile_attrs_lookup, hasattr_oidn_tile.
  rewrite (oidn_cycles_attrs_rewritten on_missing (tile_attrs on_missing b) k).
  rewrite tile_attrs_lookup.
  destruct (hasattr "use_auto_tile" b) eqn:Hauto;
    [|by rewrite (oidn_cycles_attrs_rewritten on_missing b k)].
  assert (Hnone : k = "use_auto_tile" ∨ k = "tile_x" ∨ k = "tile_y" →
            forced_on on_missing oidn_scene_writes !! k = None ∧
            probed_on on_missing oidn_scene_writes gpu_flag_writes !! k = None).
  { intros Hk. unfold forced_on, probed_on, oidn_scene_writes, gpu_flag_writes.
    destruct on_missing, Hk as [-> | [-> | ->]]; by split. }
  destruct (decide (k = "use_auto_tile")) as [Hk | H0].
  { destruct (Hnone (or_introl Hk)) as [-> ->]. done. }
  destruct (decide (k = "tile_x" ∨ k = "tile_y")) as [Hk | Hk].
  { destruct (Hnone (or_intror Hk)) as [-> ->].
    rewrite oidn_cycles_attrs_tile_lookup by (by right).
    by destruct (written on_missing (b !! k) (VInt 256)). }
  by rewrite (oidn_cycles_attrs_rewritten on_missing b k).
Qed.

Lemma final_cycles_attrs_idemp (on_missing : missing_attr_write) (a : attrs) :
  tile_attrs on_missing (oidn_cycles_attrs on_missing
    (tile_attrs on_missing (oidn_cycles_attrs on_missing a)))
  = tile_attrs on_missing (oidn_cycles_attrs on_missing a).
Proof.
  rewrite oidn_tile_commute, tile_attrs_idemp. f_equal.
  eapply attrs_rewritten_idemp; apply oidn_cycles_attrs_rewritten.
Qed.

Lemma final_ctx_idemp (on_missing : missing_attr_write) (kind : string)
  (c : context) :
  final_ctx on_missing kind (final_ctx on_missing kind c)
  = final_ctx on_missing kind c.
Proof.
  pose proof (final_ctx_parts on_missing kind c) as H1.
  pose proof (final_ctx_parts on_missing kind (final_ctx on_missing kind c))
    as H2.
  cbv zeta in *.
  destruct H1
    as (He1 & Hd1 & Hun1 & Hh1 & Hvc1 & Hp1 & Hr1 & Hv1 & Hs1 & Hnt1 & Hc1).
  destruct H2
    as (He2 & Hd2 & Hun2 & Hh2 & Hvc2 & Hp2 & Hr2 & Hv2 & Hs2 & Hnt2 & Hc2).
  apply context_ext.
  - by rewrite He2, He1.
  - by rewrite Hd2, Hd1.
  - done.
  - done.
  - done.
  - rewrite Hp2, Hp1. simpl. by rewrite select_devices_idemp.
  - rewrite Hr2, Hr1.
    eapply attrs_rewritten_idemp; apply attrs_rewritten_one.
  - rewrite Hv2, Hv1.
    eapply attrs_rewritten_idemp; by apply attrs_rewritten_two.
  - rewrite Hs2, Hs1.
    eapply attrs_rewritten_idemp; apply attrs_rewritten_one.
  - rewrite Hnt2, Hun1, Hnt1.
    destruct (use_nodes (scene c)); [|done].
    destruct (node_tree (scene c)) as [ns|]; [|done]. simpl. f_equal.
    rewrite map_map. apply map_ext. intros n. apply oidn_node_idemp.
  - rewrite Hc2, Hc1. apply final_cycles_attrs_idemp.
Qed.

(** A normal return past the three guards: the run completes. *)
Lemma setup_gpu_and_denoiser_returns (on_missing : missing_attr_write)
  (w w' : world) (kind : string) :
  engine (render (scene (ctx w))) = "CYCLES" →
  selected_kind (devices (prefs_of w)) = Some kind →
  check_denoising_enabled (ctx w) = inr true →
  setup_gpu_and_denoiser on_missing w = (w', inr tt) →
  completes on_missing w ∧
  w' = World (final_ctx on_missing kind (ctx w))
         (stdout w ++ success_lines kind
          ++ enabled_lines (select_devices kind (devices (prefs_of w)))).
Proof.
  intros He Hsel Hden Hrun.
  destruct (decide (completes on_missing w)) as [Hc | Hc].
  - split; [done|].
    rewrite (setup_gpu_and_denoiser_full _ _ _ He Hsel Hden Hc) in Hrun.
    by injection Hrun as <-.
  - destruct (setup_gpu_and_denoiser_raises _ _ _ He Hsel Hden Hc)
      as (c' & lines & e & Hraise & _).
    rewrite Hraise in Hrun. discriminate.
Qed.

(** The run keeps what indicated denoising. *)
Lemma final_ctx_indicated (on_missing : missing_attr_write) (kind : string)
  (c : context) :
  denoising_indicated c →
  denoising_indicated (final_ctx on_missing kind c).
Proof.
  destruct (final_ctx_parts on_missing kind c)
    as (_ & _ & Hun & Hh & Hvc & _ & _ & _ & _ & Hnt & Hc).
  cbv zeta in *. unfold denoising_indicated.
  intros [(v & Hv & Ht) | [Hvl | (Hon & Hhas & nodes & n & Hnodes & Hin & Hty)]].
  - left. exists (VBool true). split; [|done]. rewrite Hc.
    pose proof (final_attrs_lookup_five on_missing
                  (cycles_attrs (cycles (scene c)))) as HF.
    unfold oidn_scene_writes in HF. apply Forall_cons in HF as [HF _].
    simpl in HF. rewrite HF. apply written_is_Some. by eexists.
  - right; left. by rewrite Hvc.
  - right; right. rewrite Hun. split; [done|].
    split; [by rewrite Hh|].
    rewrite Hnt, Hon, Hnodes. simpl.
    exists (map oidn_node nodes), (oidn_node n). split; [done|]. split.
    + apply list_elem_of_fmap. by exists n.
    + unfold oidn_node. by destruct (String.eqb (n_type n) "DENOISE").
Qed.

(** X19: running the script again is harmless.  After a full run that
    returned, a second run on the state it left also returns normally,
    whatever the host does with missing attributes, and leaves the
    configuration tree exactly as the first run left it. *)
Theorem setup_gpu_and_denoiser_rerun (on_missing : missing_attr_write)
  (w w1 : world) :
  reaches_configurator w →
  setup_gpu_and_denoiser on_missing w = (w1, inr tt) →
  ∃ w2, setup_gpu_and_denoiser on_missing w1 = (w2, inr tt) ∧
        ctx w2 = ctx w1.
Proof.
  intros Hreach Hrun.
  apply reaches_configurator_iff in Hreach as (He & [kind Hsel] & Hden).
  destruct (setup_gpu_and_denoiser_returns _ _ _ _ He Hsel Hden Hrun)
    as [(Hw & Hr & Ht & Hd) ->].
  destruct (final_ctx_parts on_missing kind (ctx w))
    as (He1 & Hd1 & Hun1 & Hh1 & Hvc1 & Hp1 & Hr1 & Hv1 & Hs1 & Hnt1 & Hc1).
  set (w1 := World (final_ctx on_missing kind (ctx w)) _).
  assert (Ha1 : scene_cycles_of w1
                = tile_attrs on_missing
                    (oidn_cycles_attrs on_missing (scene_cycles_of w)))
    by exact Hc1.
  assert (Hkeep : ∀ names,
            assignable on_missing names (scene_cycles_of w) →
            assignable on_missing names (scene_cycles_of w1)).
  { intros names Hn Hpol. rewrite Ha1.
    eapply Forall_impl; [exact (Hn Hpol)|]. intros name Hname.
    by apply tile_attrs_is_Some, oidn_cycles_attrs_is_Some. }
  erewrite (setup_gpu_and_denoiser_full on_missing w1 kind).
  - eexists. split; [reflexivity|]. simpl. apply final_ctx_idemp.
  - exact He1.
  - unfold prefs_of, w1. simpl ctx. rewrite Hp1. simpl.
    unfold selected_kind. rewrite !any_device_of_select. exact Hsel.
  - apply check_denoising_enabled_indicated, final_ctx_indicated.
    by apply check_denoising_enabled_true.
  - split; [by apply Hkeep|]. split; [|split].
    + unfold nodes_readable, w1 in *. simpl ctx. by rewrite Hun1, Hh1.
    + rewrite Ha1, tile_attrs_hasattr, hasattr_oidn_tile. intros Hauto.
      rewrite <- Ha1. by apply Hkeep, Ht.
    + intros Hpol. rewrite Ha1.
      by apply tile_attrs_is_Some, oidn_cycles_attrs_is_Some, Hd.
Qed.

Lemma cycles_host_done_run :
  setup_gpu_and_denoiser RaiseAttributeError cycles_host
  = (cycles_host_done, inr tt).
Proof. vm_compute. reflexivity. Defined.

Lemma setup_gpu_and_denoiser_rerun_witness :
  (reaches_configurator cycles_host ∧
   setup_gpu_and_denoiser RaiseAttributeError cycles_host
   = (cycles_host_done, inr tt)) ∧
  ∃ w2, setup_gpu_and_denoiser RaiseAttributeError cycles_host_done
        = (w2, inr tt) ∧
        ctx w2 = ctx cycles_host_done.
Proof.
  split; [split; [exact example_host_reaches_configurator
                 | exact cycles_host_done_run]|].
  exact (setup_gpu_and_denoiser_rerun RaiseAttributeError cycles_host
           cycles_host_done example_host_reaches_configurator
           cycles_host_done_run).
Defined.

(** X20: the configurator and the tile block do not disturb the device
    selection: after a full run that returned, the engine is CYCLES, the
    cycles device is GPU, the backend is the selected kind and exactly
    the devices of that kind are enabled. *)
Theorem setup_gpu_and_denoiser_keeps_selection
  (on_missing : missing_attr_write) (w w' : world) :
  reaches_configurator w →
  setup_gpu_and_denoiser on_missing w = (w', inr tt) →
  ∃ kind,
    selected_kind (devices (prefs_of w)) = Some kind ∧
    engine (render (scene (ctx w'))) = "CYCLES" ∧
    device (cycles (scene (ctx w'))) = "GPU" ∧
    compute_device_type (prefs_of w') = kind ∧
    enabled_exactly kind (devices (prefs_of w)) (devices (prefs_of w')).
Proof.
  intros Hreach Hrun.
  apply reaches_configurator_iff in Hreach as (He & [kind Hsel] & Hden).
  destruct (setup_gpu_and_denoiser_returns _ _ _ _ He Hsel Hden Hrun)
    as [_ ->].
  destruct (final_ctx_parts on_missing kind (ctx w))
    as (He1 & Hd1 & _ & _ & _ & Hp1 & _).
  match goal with |- context [prefs_of (World ?c ?o)] =>
    assert (Hp : prefs_of (World c o)
                 = CyclesPreferences kind
                     (select_devices kind (devices (prefs_of w))))
      by exact Hp1;
    rewrite !Hp end.
  exists kind. cbn [ctx]. rewrite He1, Hd1.
  repeat split; [done|]. apply select_devices_enabled.
Qed.

Lemma setup_gpu_and_denoiser_keeps_selection_witness :
  (reaches_configurator cycles_host ∧
   setup_gpu_and_denoiser RaiseAttributeError cycles_host
   = (cycles_host_done, inr tt)) ∧
  ∃ kind,
    selected_kind example_devices = Some kind ∧
    engine (render (scene (ctx cycles_host_done))) = "CYCLES" ∧
    device (cycles (scene (ctx cycles_host_done))) = "GPU" ∧
    compute_device_type (prefs_of cycles_host_done) = kind ∧
    enabled_exactly kind example_devices (devices (prefs_of cycles_host_done)).
Proof.
  split; [split; [exact example_host_reaches_configurator
                 | exact cycles_host_done_run]|].
  exact (setup_gpu_and_denoiser_keeps_selection RaiseAttributeError
           cycles_host cycles_host_done example_host_reaches_configurator
           cycles_host_done_run).
Defined.
